(* ===================================================================== *)
(*  Ambient Skill Sync: the lesson-selection engine of                    *)
(*  ambient-skill-sync/src/App.tsx, embedded in Rocq.                     *)
(*                                                                        *)
(*  What is modelled: the component's React state that the engine reads   *)
(*  and writes (queue, seen counters, profile, current lesson, last       *)
(*  trigger, environment tags, last location, ambient flag) and the       *)
(*  handlers that change it.  Each handler is a function from state to    *)
(*  state; the values the handler reads from the outside world (the       *)
(*  hour of the day, Date.now(), every Math.random() call) are explicit   *)
(*  arguments.                                                            *)
(*                                                                        *)
(*  Numbers: experience points, streaks and seen counts are naturals     *)
(*  (JavaScript computes them exactly below 2^53), timestamps and hours   *)
(*  are integers, and the values of Math.random() and the selection       *)
(*  weights are exact rationals; the one property that depends on the     *)
(*  weights being exact says so.  xpToLevel is modelled on binary64       *)
(*  floats.  localStorage is a map from keys to JSON texts, with          *)
(*  JSON.stringify and JSON.parse as parameters.  Rendering, the          *)
(*  notification banner and the pulse animation are not part of the       *)
(*  model.                                                                *)
(* ===================================================================== *)

From Stdlib Require Import QArith Qround Lqa.
From Stdlib Require Import Floats Uint63.
From stdpp Require Import gmap strings list.

Local Open Scope string_scope.
Local Open Scope list_scope.

(* --------------------------------------------------------------------- *)
(*  Types (App.tsx, lines 26-65)                                          *)
(* --------------------------------------------------------------------- *)

Record Coordinates := { lat : Q; lon : Q }.

Module Lesson.
Record t := mk {
  id : string;
  title : string;
  tags : list string;
  text : string;
  xp : nat;
  icon : string;
  color : string;
}.
End Lesson.

Inductive TimeOfDay := morning | afternoon | evening | manual.

Module Context.
Record t := mk {
  timeOfDay : TimeOfDay;
  tags : list string;
  coords : option Coordinates;
  mood : string;
}.
End Context.

(* LessonItem = Lesson & { triggeredAt?: number; context?: Context } *)
Module LessonItem.
Record t := mk {
  lesson : Lesson.t;
  triggeredAt : option Z;
  context : option Context.t;
}.
Definition id (x : t) : string := Lesson.id (lesson x).
Definition xp (x : t) : nat := Lesson.xp (lesson x).
End LessonItem.

Module Profile.
Record t := mk {
  name : string;
  skills : list string;
  xp : nat;
  streak : nat;
  level : nat;
}.
End Profile.

Record LastTrigger := { lessonId : string; at_ : Z }.

(* --------------------------------------------------------------------- *)
(*  Constants (lines 68-131)                                              *)
(* --------------------------------------------------------------------- *)

Definition INITIAL_PROFILE : Profile.t :=
  Profile.mk "Alex Chen"
    ["Productivity"; "AI Literacy"; "Culinary Arts"; "Mindfulness"; "Finance"]
    245 14 7.

Definition lesson_p1 : Lesson.t :=
  Lesson.mk "p1" "Productivity Pulse"
    ["Productivity"; "Focus"; "Time Management"]
    "Apply the 2-Minute Rule: if a task takes less than two minutes, do it immediately. This prevents small tasks from piling up."
    25 "⚡" "from-amber-500 to-orange-500".

Definition lesson_c1 : Lesson.t :=
  Lesson.mk "c1" "Culinary Chemistry"
    ["Cooking"; "Science"; "Kitchen"]
    "Add a pinch of salt to coffee grounds before brewing to reduce bitterness by blocking bitter receptors on your tongue."
    30 "🍳" "from-rose-500 to-pink-500".

Definition lesson_a1 : Lesson.t :=
  Lesson.mk "a1" "AI Insight"
    ["AI"; "Technology"; "Learning"]
    "Attention mechanisms in transformers allow models to focus on relevant parts of input, similar to human concentration."
    40 "🤖" "from-blue-500 to-cyan-500".

Definition lesson_s1 : Lesson.t :=
  Lesson.mk "s1" "Mindful Minute"
    ["Wellness"; "Mindfulness"; "Health"]
    "Practice 'box breathing': inhale 4s, hold 4s, exhale 4s, hold 4s. Repeat 4 times to reset your nervous system."
    20 "🧘" "from-emerald-500 to-teal-500".

Definition lesson_e1 : Lesson.t :=
  Lesson.mk "e1" "Financial Flash"
    ["Finance"; "Investing"; "Growth"]
    "The Rule of 72: Divide 72 by your annual return rate to estimate how many years it takes to double your investment."
    35 "💰" "from-purple-500 to-violet-500".

Definition lesson_h1 : Lesson.t :=
  Lesson.mk "h1" "Health Hack"
    ["Health"; "Wellness"; "Habit"]
    "Drink a glass of water before each meal. This aids digestion and helps with portion control naturally."
    15 "💧" "from-sky-500 to-blue-500".

Definition LESSONS : list Lesson.t :=
  [lesson_p1; lesson_c1; lesson_a1; lesson_s1; lesson_e1; lesson_h1].

(* The literal default of the envTags state (lines 369 and 562). *)
Definition DEFAULT_ENV_TAGS : list string := ["Focus"; "Learning"; "Wellness"].

(* --------------------------------------------------------------------- *)
(*  JavaScript array helpers                                              *)
(* --------------------------------------------------------------------- *)

(* Array.prototype.includes on strings: exact, case-sensitive equality. *)
Definition includes (l : list string) (x : string) : bool :=
  existsb (String.eqb x) l.

(* Array.prototype.some *)
Definition some {A} (p : A -> bool) (l : list A) : bool := existsb p l.

(* arr[i] for an integer i: undefined (None) outside 0 .. length-1. *)
Definition index {A} (l : list A) (i : Z) : option A :=
  if (i <? 0)%Z then None else l !! Z.to_nat i.

(* arr[Math.floor(r * arr.length)] where r is a value of Math.random(). *)
Definition randomElement {A} (l : list A) (r : Q) : option A :=
  index l (Qfloor (r * inject_Z (Z.of_nat (length l)))%Q).

(* --------------------------------------------------------------------- *)
(*  Utilities (lines 171-181)                                             *)
(* --------------------------------------------------------------------- *)

(* getTimeOfDay, with new Date().getHours() as its argument. *)
Definition getTimeOfDay (hour : Z) : TimeOfDay :=
  if ((5 <=? hour) && (hour <? 12))%Z then morning
  else if (hour <? 17)%Z then afternoon
  else evening.

Definition moods : list string :=
  ["Focused"; "Curious"; "Relaxed"; "Energetic"; "Creative"; "Analytical"].

(* getMood, with the value of its Math.random() call as argument.  For a
   draw in [0,1) the index is in range; "undefined" stands for the
   JavaScript undefined that an out-of-range index would give. *)
Definition getMood (r : Q) : string :=
  default "undefined" (randomElement moods r).

(* --------------------------------------------------------------------- *)
(*  Component state (lines 358-375)                                       *)
(* --------------------------------------------------------------------- *)

Record State := mkState {
  ambientOn : bool;
  lessonsSeen : gmap string nat;
  queue : list LessonItem.t;
  lastTrigger : option LastTrigger;
  profile : Profile.t;
  currentLesson : option LessonItem.t;
  envTags : list string;
  lastLocation : option Coordinates;
}.

(* The state after mounting.  ambientOn, lessonsSeen and envTags come from
   safeGet, that is from whatever localStorage holds (or the fallbacks
   false, {} and DEFAULT_ENV_TAGS); the other fields are literals. *)
Definition initialState (storedAmbientOn : bool)
    (storedLessonsSeen : gmap string nat) (storedEnvTags : list string) : State :=
  mkState storedAmbientOn storedLessonsSeen [] None INITIAL_PROFILE None
          storedEnvTags None.

(* --------------------------------------------------------------------- *)
(*  Ambient engine (lines 389-462)                                        *)
(* --------------------------------------------------------------------- *)

(* The Math.random() calls of one ambient tick, in the order of the code:
   getMood, idle, waiting, the location tag, the weighted draw and the
   fallback draw. *)
Record TickDraws := {
  rMood : Q;
  rIdle : Q;
  rWaiting : Q;
  rLocation : Q;
  rPick : Q;
  rFallback : Q;
}.

(* x > y on numbers *)
Definition greater (x y : Q) : bool := negb (Qle_bool x y).
(* x < y on numbers *)
Definition less (x y : Q) : bool := negb (Qle_bool y x).

Definition isSome {A} (o : option A) : bool :=
  match o with Some _ => true | None => false end.

Definition buildSimulatedContext (hour : Z) (d : TickDraws)
    (envTags : list string) (lastLocation : option Coordinates) : Context.t :=
  let timeOfDay := getTimeOfDay hour in
  let mood := getMood (rMood d) in
  let idle := greater (rIdle d) (6 # 10)%Q in
  let waiting := greater (rWaiting d) (7 # 10)%Q in
  let tags := envTags in
  let tags := if idle then tags ++ ["Idle"] else tags in
  let tags := if waiting then tags ++ ["Waiting"] else tags in
  let tags := match timeOfDay with morning => tags ++ ["Morning"] | _ => tags end in
  let tags := match timeOfDay with evening => tags ++ ["Evening"] | _ => tags end in
  let tags := if isSome lastLocation && greater (rLocation d) (8 # 10)%Q
              then tags ++ ["Location-based"] else tags in
  let tags := tags ++ [mood] in
  Context.mk timeOfDay tags lastLocation mood.

(* The filter of lines 408-412. *)
Definition candidates (context : Context.t) (skills : list string) : list Lesson.t :=
  List.filter
    (fun lesson =>
       some (fun tag => includes (Context.tags context) tag || includes skills tag)
            (Lesson.tags lesson))
    LESSONS.

(* 1 / ((lessonsSeen[lesson.id] || 0) + 1) *)
Definition weight (lessonsSeen : gmap string nat) (lesson : Lesson.t) : Q :=
  (1 / inject_Z (Z.of_nat (default 0 (lessonsSeen !! Lesson.id lesson) + 1)%nat))%Q.

(* The for loop of lines 423-426: Some lesson when the loop returns,
   None when it runs off the end of the array. *)
Fixpoint walk (weightedCandidates : list (Lesson.t * Q)) (random : Q)
    : option Lesson.t :=
  match weightedCandidates with
  | [] => None
  | (lesson, w) :: rest =>
      if less random w then Some lesson else walk rest (random - w)%Q
  end.

Definition pickLessonForContext (context : Context.t) (skills : list string)
    (lessonsSeen : gmap string nat) (rPick rFallback : Q) : option Lesson.t :=
  let weightedCandidates :=
    map (fun lesson => (lesson, weight lessonsSeen lesson))
        (candidates context skills) in
  let found :=
    if (0 <? length weightedCandidates)%nat then
      let totalWeight := fold_left (fun sum lw => (sum + snd lw)%Q) weightedCandidates 0%Q in
      walk weightedCandidates (rPick * totalWeight)%Q
    else None in
  match found with
  | Some lesson => Some lesson
  | None => randomElement LESSONS rFallback
  end.

(* currentQueue.some((item) => item.id === lesson.id) *)
Definition queued (lesson : Lesson.t) (currentQueue : list LessonItem.t) : bool :=
  some (fun item => String.eqb (LessonItem.id item) (Lesson.id lesson)) currentQueue.

Definition newItem (lesson : Lesson.t) (context : Context.t) (now : Z) : LessonItem.t :=
  LessonItem.mk lesson (Some now) (Some context).

(* The updater passed to setQueue by enqueueLesson (lines 433-451). *)
Definition enqueueUpdater (lesson : Lesson.t) (context : Context.t) (now : Z)
    (currentQueue : list LessonItem.t) : list LessonItem.t :=
  if (5 <=? length currentQueue)%nat then currentQueue
  else if queued lesson currentQueue then currentQueue
  else newItem lesson context now :: currentQueue.

(* enqueueLesson; queuedAt and triggerAt are its two Date.now() readings. *)
Definition enqueueLesson (lesson : Lesson.t) (context : Context.t)
    (queuedAt triggerAt : Z) (s : State) : State :=
  mkState (ambientOn s) (lessonsSeen s)
          (enqueueUpdater lesson context queuedAt (queue s))
          (Some {| lessonId := Lesson.id lesson; at_ := triggerAt |})
          (profile s) (currentLesson s) (envTags s) (lastLocation s).

Definition ambientTick (hour : Z) (d : TickDraws) (queuedAt triggerAt : Z)
    (s : State) : State :=
  let context := buildSimulatedContext hour d (envTags s) (lastLocation s) in
  match pickLessonForContext context (Profile.skills (profile s)) (lessonsSeen s)
                             (rPick d) (rFallback d) with
  | Some lesson => enqueueLesson lesson context queuedAt triggerAt s
  | None => s
  end.

(* --------------------------------------------------------------------- *)
(*  Handlers (lines 501-592)                                              *)
(* --------------------------------------------------------------------- *)

Definition showLesson (lesson : LessonItem.t) (s : State) : State :=
  let id := LessonItem.id lesson in
  let p := profile s in
  mkState (ambientOn s)
          (<[id := default 0 (lessonsSeen s !! id) + 1]> (lessonsSeen s))
          (List.filter (fun x => negb (String.eqb (LessonItem.id x) id)) (queue s))
          (lastTrigger s)
          (Profile.mk (Profile.name p) (Profile.skills p)
                      (Profile.xp p + LessonItem.xp lesson)
                      (Profile.streak p + 1) (Profile.level p))
          (Some lesson) (envTags s) (lastLocation s).

Definition dismissLesson (s : State) : State :=
  mkState (ambientOn s) (lessonsSeen s) (queue s) (lastTrigger s) (profile s)
          None (envTags s) (lastLocation s).

(* The filter of lines 529-531. *)
Definition relevantLessons (tag : string) (skills : list string) : list Lesson.t :=
  List.filter (fun l => includes (Lesson.tags l) tag || includes skills tag) LESSONS.

(* Lines 533-535; r is the one Math.random() call that is evaluated. *)
Definition manualPick (tag : string) (skills : list string) (r : Q) : option Lesson.t :=
  let relevant := relevantLessons tag skills in
  if (0 <? length relevant)%nat then randomElement relevant r
  else randomElement LESSONS r.

(* The updater passed to setQueue by manualTrigger (lines 538-550). *)
Definition manualUpdater (lesson : Lesson.t) (context : Context.t) (now : Z)
    (currentQueue : list LessonItem.t) : list LessonItem.t :=
  if queued lesson currentQueue then currentQueue
  else take 5 (newItem lesson context now :: currentQueue).

Definition manualContext (tag : string) (rMood : Q) (s : State) : Context.t :=
  Context.mk manual [tag; "Manual"] (lastLocation s) (getMood rMood).

(* manualTrigger; rMood and rPick are its Math.random() calls, queuedAt and
   triggerAt its Date.now() readings. *)
Definition manualTrigger (tag : string) (rMood rPick : Q) (queuedAt triggerAt : Z)
    (s : State) : State :=
  let context := manualContext tag rMood s in
  match manualPick tag (Profile.skills (profile s)) rPick with
  | Some lesson =>
      mkState (ambientOn s) (lessonsSeen s)
              (manualUpdater lesson context queuedAt (queue s))
              (Some {| lessonId := Lesson.id lesson; at_ := triggerAt |})
              (profile s) (currentLesson s) (envTags s) (lastLocation s)
  | None => s
  end.

Definition resetDemo (s : State) : State :=
  mkState (ambientOn s) ∅ [] (lastTrigger s) INITIAL_PROFILE None
          DEFAULT_ENV_TAGS (lastLocation s).

(* addEnvTag; trimmed is tag.trim(). *)
Definition addEnvTag (trimmed : string) (s : State) : State :=
  if negb (String.eqb trimmed "") && negb (includes (envTags s) trimmed) then
    mkState (ambientOn s) (lessonsSeen s) (queue s) (lastTrigger s) (profile s)
            (currentLesson s) (trimmed :: envTags s) (lastLocation s)
  else s.

Definition removeEnvTag (tag : string) (s : State) : State :=
  mkState (ambientOn s) (lessonsSeen s) (queue s) (lastTrigger s) (profile s)
          (currentLesson s)
          (List.filter (fun t => negb (String.eqb t tag)) (envTags s))
          (lastLocation s).

Definition handleMarkDone (s : State) : State :=
  match currentLesson s with
  | Some current =>
      let p := profile s in
      dismissLesson
        (mkState (ambientOn s) (lessonsSeen s) (queue s) (lastTrigger s)
                 (Profile.mk (Profile.name p) (Profile.skills p)
                             (Profile.xp p + LessonItem.xp current)
                             (Profile.streak p) (Profile.level p))
                 (currentLesson s) (envTags s) (lastLocation s))
  | None => s
  end.

Definition toggleAmbientMode (s : State) : State :=
  mkState (negb (ambientOn s)) (lessonsSeen s) (queue s) (lastTrigger s)
          (profile s) (currentLesson s) (envTags s) (lastLocation s).

(* The success callback of getCurrentPosition (lines 467-472). *)
Definition setLastLocation (c : Coordinates) (s : State) : State :=
  mkState (ambientOn s) (lessonsSeen s) (queue s) (lastTrigger s) (profile s)
          (currentLesson s) (envTags s) (Some c).

(* --------------------------------------------------------------------- *)
(*  The component as a transition system                                  *)
(* --------------------------------------------------------------------- *)

(* The events the component reacts to.  A timer tick carries the hour, the
   random draws and the two clock readings of that tick. *)
Inductive Op :=
  | OpAmbientTick (hour : Z) (d : TickDraws) (queuedAt triggerAt : Z)
  | OpManualTrigger (tag : string) (rMood rPick : Q) (queuedAt triggerAt : Z)
  | OpShowLesson (lesson : LessonItem.t)
  | OpDismiss
  | OpMarkDone
  | OpReset
  | OpToggleAmbient
  | OpAddEnvTag (trimmed : string)
  | OpRemoveEnvTag (tag : string)
  | OpLocation (c : Coordinates).

(* The interval that calls ambientTick exists only while ambientOn holds
   (lines 464-485), so a tick in a paused state changes nothing. *)
Definition step (s : State) (op : Op) : State :=
  match op with
  | OpAmbientTick hour d queuedAt triggerAt =>
      if ambientOn s then ambientTick hour d queuedAt triggerAt s else s
  | OpManualTrigger tag rMood rPick queuedAt triggerAt =>
      manualTrigger tag rMood rPick queuedAt triggerAt s
  | OpShowLesson lesson => showLesson lesson s
  | OpDismiss => dismissLesson s
  | OpMarkDone => handleMarkDone s
  | OpReset => resetDemo s
  | OpToggleAmbient => toggleAmbientMode s
  | OpAddEnvTag trimmed => addEnvTag trimmed s
  | OpRemoveEnvTag tag => removeEnvTag tag s
  | OpLocation c => setLastLocation c s
  end.

Definition run (s : State) (ops : list Op) : State := fold_left step ops s.

(* --------------------------------------------------------------------- *)
(*  Predicates used in the statements                                     *)
(* --------------------------------------------------------------------- *)

(* A lesson matches when one of its tags occurs among the context tags or
   among the skills. *)
Definition tagOverlap (lesson : Lesson.t) (contextTags skills : list string) : Prop :=
  exists tag, In tag (Lesson.tags lesson) /\ (In tag contextTags \/ In tag skills).

(* No two entries of the queue belong to one lesson. *)
Definition distinctIds (q : list LessonItem.t) : Prop :=
  NoDup (map LessonItem.id q).

(* --------------------------------------------------------------------- *)
(*  Sample states and draws                                               *)
(* --------------------------------------------------------------------- *)

(* The queue of five entries that five manual triggers build from the
   initial state. *)
Definition fiveTriggers : list Op :=
  [OpManualTrigger "Focus" 0 0 1000 1000;
   OpManualTrigger "Cooking" 0 0 2000 2000;
   OpManualTrigger "AI" 0 0 3000 3000;
   OpManualTrigger "Wellness" 0 0 4000 4000;
   OpManualTrigger "Investing" 0 0 5000 5000].

Definition fullState : State :=
  run (initialState true ∅ DEFAULT_ENV_TAGS) fiveTriggers.

(* After one manual trigger for Focus the queue holds p1, stamped 1000. *)
Definition oneQueued : State :=
  run (initialState true ∅ DEFAULT_ENV_TAGS) [OpManualTrigger "Focus" 0 0 1000 1000].

(* A quiet tick: no idle, waiting or location tag, first mood, and a
   weighted draw of 0, which selects the first candidate. *)
Definition quietDraws : TickDraws :=
  {| rMood := 0; rIdle := 0; rWaiting := 0; rLocation := 0;
     rPick := 0; rFallback := 0 |}.

(* --------------------------------------------------------------------- *)
(*  Level display (xpToLevel, lines 159-169)                              *)
(* --------------------------------------------------------------------- *)

(* xpToLevel works on JavaScript numbers; here they are the kernel's
   binary64 floats, whose operations round as JavaScript's do. *)

(* The number that an integer literal or an integer-valued field denotes
   (exact below 2^53). *)
Definition toFloat (z : Z) : float := PrimFloat.of_uint63 (Uint63.of_Z z).

(* The integer part of a finite float that is not negative; 0 on the other
   floats, which xpToLevel does not meet for an xp that is not negative. *)
Definition floorZ (f : float) : Z :=
  match Prim2SF f with
  | S754_finite false m e =>
      if (0 <=? e)%Z then Z.shiftl (Z.pos m) e else Z.shiftr (Z.pos m) (- e)
  | _ => 0%Z
  end.

(* Math.floor, on floats from 0 up to 2^63. *)
Definition Math_floor (f : float) : float := toFloat (floorZ f).

(* Math.pow(x, 2) *)
Definition Math_pow2 (x : float) : float := (x * x)%float.

(* Math.min of two numbers: NaN when one of them is NaN. *)
Definition Math_min (a b : float) : float :=
  if PrimFloat.is_nan a || PrimFloat.is_nan b then PrimFloat.nan
  else if PrimFloat.ltb b a then b else a.

Module LevelInfo.
Record t := mk {
  level : float;
  next : float;
  progress : float;
}.
End LevelInfo.

Definition xpToLevel (xp : float) : LevelInfo.t :=
  let level := Math_floor (PrimFloat.sqrt (xp / toFloat 10)) in
  let nextLevelXp := (Math_pow2 (level + toFloat 1) * toFloat 10)%float in
  let progress :=
    (((xp - Math_pow2 level * toFloat 10)
      / (nextLevelXp - Math_pow2 level * toFloat 10)) * toFloat 100)%float in
  LevelInfo.mk level nextLevelXp (Math_min progress (toFloat 100)).

(* levelInfo of line 595: xpToLevel(profile.xp). *)
Definition levelInfo (s : State) : LevelInfo.t :=
  xpToLevel (toFloat (Z.of_nat (Profile.xp (profile s)))).

(* What a correct level display shows for an integer xp: the level is the
   integer square root of xp / 10, checked against xpToLevel. *)
Definition levelAgrees (xp : Z) : bool :=
  let r := xpToLevel (toFloat xp) in
  let l := Z.sqrt (xp / 10) in
  PrimFloat.eqb (LevelInfo.level r) (toFloat l)
  && PrimFloat.eqb (LevelInfo.next r) (toFloat (10 * (l + 1) * (l + 1)))
  && PrimFloat.leb (toFloat 0) (LevelInfo.progress r)
  && PrimFloat.ltb (LevelInfo.progress r) (toFloat 100).

(* levelAgrees on the n integers from z on. *)
Fixpoint levelAgreesFrom (z : Z) (n : nat) : bool :=
  match n with
  | O => true
  | S n => levelAgrees z && levelAgreesFrom (z + 1) n
  end.

(* --------------------------------------------------------------------- *)
(*  localStorage (safeGet and safeSet, lines 141-157; the effect of       *)
(*  lines 381-386 and the state initialisers of lines 358-370)            *)
(* --------------------------------------------------------------------- *)

(* localStorage: keys and the JSON texts stored under them. *)
Abbreviation Storage := (gmap string string).

Section SafeStorage.
(* JSON.stringify and JSON.parse at the type T; parse gives None where
   JSON.parse throws. *)
Context {T : Type} (stringify : T -> string) (parse : string -> option T).

(* safeGet.  window is None where typeof window is "undefined". *)
Definition safeGet (window : option Storage) (key : string) (fallback : T) : T :=
  match window with
  | None => fallback
  | Some localStorage =>
      match localStorage !! key with
      | None => fallback
      | Some raw =>
          if String.eqb raw "" then fallback
          else match parse raw with
               | Some value => value
               | None => fallback
               end
      end
  end.

(* safeSet.  accepted is false where setItem throws (a full or disabled
   store); the exception is caught and nothing is written. *)
Definition safeSet (accepted : bool) (key : string) (value : T)
    (window : option Storage) : option Storage :=
  match window with
  | None => None
  | Some localStorage =>
      Some (if accepted then <[key := stringify value]> localStorage
            else localStorage)
  end.

End SafeStorage.

(* JSON.stringify and JSON.parse at the booleans, the type of the
   ambientOn key: the texts true and false. *)
Definition jsonOfBool (b : bool) : string := if b then "true" else "false".

Definition boolOfJson (raw : string) : option bool :=
  if String.eqb raw "true" then Some true
  else if String.eqb raw "false" then Some false
  else None.

Section Persistence.
Context (stringifyBool : bool -> string) (parseBool : string -> option bool)
        (stringifyProfile : Profile.t -> string)
        (stringifySeen : gmap string nat -> string)
        (parseSeen : string -> option (gmap string nat))
        (stringifyTags : list string -> string)
        (parseTags : string -> option (list string)).

(* The effect of lines 381-386, run after a render in state s. *)
Definition persist (s : State) (window : option Storage) : option Storage :=
  safeSet stringifyTags true "envTags" (envTags s)
    (safeSet stringifySeen true "lessonsSeen" (lessonsSeen s)
       (safeSet stringifyProfile true "profile" (profile s)
          (safeSet stringifyBool true "ambientOn" (ambientOn s) window))).

(* The state a fresh mount builds from the store (lines 358-375). *)
Definition mount (window : option Storage) : State :=
  initialState (safeGet parseBool window "ambientOn" false)
               (safeGet parseSeen window "lessonsSeen" ∅)
               (safeGet parseTags window "envTags" DEFAULT_ENV_TAGS).

End Persistence.

(* --------------------------------------------------------------------- *)
(*  Counting what a run of events did                                     *)
(* --------------------------------------------------------------------- *)

Definition isReset (op : Op) : bool :=
  match op with OpReset => true | _ => false end.

(* The events after the last reset. *)
Definition sinceReset (ops : list Op) : list Op :=
  fold_left (fun acc op => if isReset op then [] else acc ++ [op]) ops [].

Definition hasReset (ops : list Op) : bool := existsb isReset ops.

(* The lessons opened, in order. *)
Definition opened (ops : list Op) : list LessonItem.t :=
  flat_map (fun op => match op with OpShowLesson l => [l] | _ => [] end) ops.

(* How often the lesson with this identifier was opened. *)
Definition timesOpened (id : string) (ops : list Op) : nat :=
  length (List.filter (fun l => String.eqb (LessonItem.id l) id) (opened ops)).

(* The sum of the rewards of the lessons opened. *)
Definition rewardsOpened (ops : list Op) : nat :=
  list_sum (map LessonItem.xp (opened ops)).

(* The reward of the lesson on display, 0 when there is none. *)
Definition pendingReward (s : State) : nat :=
  match currentLesson s with
  | Some current => LessonItem.xp current
  | None => 0
  end.

(* The bookkeeping that every event keeps true in a run from the state
   after mounting: streak, experience points and seen counters against
   the lessons opened since the last reset. *)
Definition accounted (storedAmbientOn : bool) (storedLessonsSeen : gmap string nat)
    (storedEnvTags : list string) (ops : list Op) : Prop :=
  let s := run (initialState storedAmbientOn storedLessonsSeen storedEnvTags) ops in
  let recent := sinceReset ops in
  Profile.streak (profile s) = (14 + length (opened recent))%nat
  /\ (245 + rewardsOpened recent <= Profile.xp (profile s))%nat
  /\ (Profile.xp (profile s) + pendingReward s <= 245 + 2 * rewardsOpened recent)%nat
  /\ forall id,
       default 0%nat (lessonsSeen s !! id)
       = ((if hasReset ops then 0 else default 0 (storedLessonsSeen !! id))
          + timesOpened id recent)%nat.

(* A queue entry as the engine makes them: a catalog lesson with the time
   and the context of its trigger. *)
Definition wellFormedItem (item : LessonItem.t) : Prop :=
  In (LessonItem.lesson item) LESSONS
  /\ is_Some (LessonItem.triggeredAt item)
  /\ is_Some (LessonItem.context item).

(* The last trigger, when there is one, names a catalog lesson. *)
Definition knownTrigger (t : option LastTrigger) : Prop :=
  match t with
  | Some trigger => In (lessonId trigger) (map Lesson.id LESSONS)
  | None => True
  end.


(* ===================================================================== *)
(*  Properties                                                            *)
(* ===================================================================== *)

(* --------------------------------------------------------------------- *)
(*  Array helpers                                                         *)
(* --------------------------------------------------------------------- *)

Lemma includes_In (l : list string) (x : string) :
  includes l x = true <-> In x l.
Proof.
  unfold includes. rewrite existsb_exists. split.
  - intros (y & Hy & Heq). apply String.eqb_eq in Heq. now subst.
  - intros H. exists x. split; [exact H | apply String.eqb_refl].
Qed.

Lemma queued_In (lesson : Lesson.t) (q : list LessonItem.t) :
  queued lesson q = true <-> In (Lesson.id lesson) (map LessonItem.id q).
Proof.
  unfold queued, some. rewrite existsb_exists, in_map_iff. split.
  - intros (item & Hin & Heq). apply String.eqb_eq in Heq. eauto.
  - intros (item & Heq & Hin). exists item. split; [exact Hin |].
    now apply String.eqb_eq.
Qed.

Lemma queued_false_not_In (lesson : Lesson.t) (q : list LessonItem.t) :
  queued lesson q = false <-> ~ In (Lesson.id lesson) (map LessonItem.id q).
Proof.
  rewrite <- queued_In. destruct (queued lesson q); split; congruence.
Qed.

Lemma index_Some_In {A} (l : list A) (i : Z) (x : A) :
  index l i = Some x -> In x l.
Proof.
  unfold index. destruct (i <? 0)%Z; [discriminate |].
  intros H. apply list_elem_of_In. eapply list_elem_of_lookup_2; exact H.
Qed.

Lemma index_in_range {A} (l : list A) (i : Z) :
  (0 <= i < Z.of_nat (length l))%Z -> exists x, index l i = Some x.
Proof.
  intros [Hlo Hhi]. unfold index.
  destruct (Z.ltb_spec i 0); [lia |].
  apply lookup_lt_is_Some_2. lia.
Qed.

(* Math.floor(r * n) is an index of an n-element array when 0 <= r < 1. *)
Lemma floor_scaled_range (r : Q) (n : nat) :
  (0 <= r)%Q -> (r < 1)%Q -> (0 < n)%nat ->
  (0 <= Qfloor (r * inject_Z (Z.of_nat n)) < Z.of_nat n)%Z.
Proof.
  intros Hlo Hhi Hn.
  assert (Hpos : (0 < inject_Z (Z.of_nat n))%Q).
  { change 0%Q with (inject_Z 0). rewrite <- Zlt_Qlt. lia. }
  split.
  - change 0%Z with (Qfloor 0). apply Qfloor_resp_le.
    apply Qmult_le_0_compat; [exact Hlo | now apply Qlt_le_weak].
  - rewrite Zlt_Qlt.
    eapply Qle_lt_trans; [apply Qfloor_le |].
    rewrite <- (Qmult_1_l (inject_Z (Z.of_nat n))) at 2.
    apply Qmult_lt_compat_r; assumption.
Qed.

Lemma randomElement_Some {A} (l : list A) (r : Q) :
  (0 <= r)%Q -> (r < 1)%Q -> (0 < length l)%nat ->
  exists x, randomElement l r = Some x /\ In x l.
Proof.
  intros Hlo Hhi Hlen. unfold randomElement.
  destruct (index_in_range l (Qfloor (r * inject_Z (Z.of_nat (length l)))))
    as [x Hx].
  - now apply floor_scaled_range.
  - exists x. split; [exact Hx | eapply index_Some_In; exact Hx].
Qed.

(* --------------------------------------------------------------------- *)
(*  Time of day                                                           *)
(* --------------------------------------------------------------------- *)

Lemma getTimeOfDay_morning (hour : Z) :
  (5 <= hour < 12)%Z -> getTimeOfDay hour = morning.
Proof.
  intros [H1 H2]. unfold getTimeOfDay.
  destruct (Z.leb_spec 5 hour); [| lia].
  destruct (Z.ltb_spec hour 12); [reflexivity | lia].
Qed.

Lemma getTimeOfDay_afternoon (hour : Z) :
  (12 <= hour < 17)%Z -> getTimeOfDay hour = afternoon.
Proof.
  intros [H1 H2]. unfold getTimeOfDay.
  destruct (Z.ltb_spec hour 12); [lia |]. rewrite andb_false_r.
  destruct (Z.ltb_spec hour 17); [reflexivity | lia].
Qed.

Lemma getTimeOfDay_evening (hour : Z) :
  (17 <= hour)%Z -> getTimeOfDay hour = evening.
Proof.
  intros H. unfold getTimeOfDay.
  destruct (Z.ltb_spec hour 12); [lia |]. rewrite andb_false_r.
  destruct (Z.ltb_spec hour 17); [lia | reflexivity].
Qed.

(* Before five o'clock the first test fails and the second one, which has
   no lower bound, succeeds. *)
Lemma getTimeOfDay_before_five (hour : Z) :
  (hour < 5)%Z -> getTimeOfDay hour = afternoon.
Proof.
  intros H. unfold getTimeOfDay.
  destruct (Z.leb_spec 5 hour); [lia |]. simpl.
  destruct (Z.ltb_spec hour 17); [reflexivity | lia].
Qed.

(** C1: the claim gives hours 0 through 4 the category evening.  At three
    o'clock at night getTimeOfDay answers afternoon: the test [hour < 17]
    is reached by every hour below 5. *)
Theorem getTimeOfDay_at_three : getTimeOfDay 3 = afternoon.
Proof. reflexivity. Qed.

(* --------------------------------------------------------------------- *)
(*  Candidate sets                                                        *)
(* --------------------------------------------------------------------- *)

Lemma candidates_In (context : Context.t) (skills : list string) (lesson : Lesson.t) :
  In lesson (candidates context skills) <->
  In lesson LESSONS /\ tagOverlap lesson (Context.tags context) skills.
Proof.
  unfold candidates, tagOverlap, some.
  rewrite filter_In, existsb_exists.
  split; intros [Hin (tag & Htag & H)]; (split; [exact Hin |]); exists tag;
    (split; [exact Htag |]).
  - apply orb_true_iff in H. rewrite !includes_In in H. exact H.
  - apply orb_true_iff. rewrite !includes_In. exact H.
Qed.

Lemma relevantLessons_In (tag : string) (skills : list string) (lesson : Lesson.t) :
  In lesson (relevantLessons tag skills) <->
  In lesson LESSONS /\ (In tag (Lesson.tags lesson) \/ In tag skills).
Proof.
  unfold relevantLessons. rewrite filter_In, orb_true_iff, !includes_In.
  reflexivity.
Qed.

(** C2, as stated, for the manual trigger: with the tag Cooking and the
    initial profile, the lesson p1 has a tag (Productivity) among the
    profile's skills, so the claim makes it a candidate; relevantLessons
    holds c1 alone. *)
Lemma manual_candidates_not_tag_overlap :
  In lesson_p1 LESSONS
  /\ tagOverlap lesson_p1 (Context.tags (manualContext "Cooking" 0
                             (initialState false ∅ DEFAULT_ENV_TAGS)))
                (Profile.skills INITIAL_PROFILE)
  /\ relevantLessons "Cooking" (Profile.skills INITIAL_PROFILE) = [lesson_c1]
  /\ ~ In lesson_p1 (relevantLessons "Cooking" (Profile.skills INITIAL_PROFILE)).
Proof.
  split; [| split; [| split]].
  - simpl. auto.
  - exists "Productivity". simpl. auto.
  - reflexivity.
  - intros [H | []]. discriminate H.
Qed.

(** C2, amended: on an ambient tick the candidates are exactly the catalog
    lessons with a tag among the context's tags or the profile's skills.
    On a manual trigger they are the catalog lessons that carry the
    requested tag, or the whole catalog when the requested tag is itself
    one of the profile's skills. *)
Theorem candidate_sets (context : Context.t) (skills : list string)
    (tag : string) (lesson : Lesson.t) :
  (In lesson (candidates context skills) <->
     In lesson LESSONS /\ tagOverlap lesson (Context.tags context) skills)
  /\ (In lesson (relevantLessons tag skills) <->
        In lesson LESSONS /\ (In tag (Lesson.tags lesson) \/ In tag skills))
  /\ (In tag skills -> relevantLessons tag skills = LESSONS).
Proof.
  split; [apply candidates_In | split; [apply relevantLessons_In |]].
  intros Hskill. unfold relevantLessons.
  apply includes_In in Hskill.
  assert (H : forall l : list Lesson.t,
             List.filter (fun l0 => includes (Lesson.tags l0) tag || includes skills tag) l = l).
  { induction l as [| x l IH]; [reflexivity |]. cbn [List.filter].
    rewrite IH, Hskill, orb_true_r. reflexivity. }
  apply H.
Qed.

(* --------------------------------------------------------------------- *)
(*  Queue insertion                                                       *)
(* --------------------------------------------------------------------- *)

Lemma enqueueUpdater_full lesson context now (q : list LessonItem.t) :
  (5 <= length q)%nat -> enqueueUpdater lesson context now q = q.
Proof.
  intros H. unfold enqueueUpdater.
  destruct (Nat.leb_spec 5 (length q)); [reflexivity | lia].
Qed.

Lemma enqueueUpdater_queued lesson context now (q : list LessonItem.t) :
  queued lesson q = true -> enqueueUpdater lesson context now q = q.
Proof.
  intros H. unfold enqueueUpdater. rewrite H. now destruct (5 <=? length q)%nat.
Qed.

Lemma manualUpdater_queued lesson context now (q : list LessonItem.t) :
  queued lesson q = true -> manualUpdater lesson context now q = q.
Proof. intros H. unfold manualUpdater. now rewrite H. Qed.

Lemma manualUpdater_fresh lesson context now (q : list LessonItem.t) :
  queued lesson q = false ->
  manualUpdater lesson context now q = newItem lesson context now :: take 4 q.
Proof. intros H. unfold manualUpdater. now rewrite H. Qed.

Lemma enqueueUpdater_length lesson context now (q : list LessonItem.t) :
  (length q <= 5)%nat -> (length (enqueueUpdater lesson context now q) <= 5)%nat.
Proof.
  intros H. unfold enqueueUpdater.
  destruct (Nat.leb_spec 5 (length q)); [exact H |].
  destruct (queued lesson q); simpl; lia.
Qed.

Lemma manualUpdater_length lesson context now (q : list LessonItem.t) :
  (length q <= 5)%nat -> (length (manualUpdater lesson context now q) <= 5)%nat.
Proof.
  intros H. unfold manualUpdater.
  destruct (queued lesson q); [exact H |].
  rewrite length_take. lia.
Qed.

Lemma ambientTick_queue hour d queuedAt triggerAt (s : State) :
  queue (ambientTick hour d queuedAt triggerAt s) = queue s
  \/ exists lesson context,
       queue (ambientTick hour d queuedAt triggerAt s)
       = enqueueUpdater lesson context queuedAt (queue s).
Proof.
  unfold ambientTick.
  destruct (pickLessonForContext _ _ _ _ _) as [lesson |]; [| now left].
  right. eexists _, _. reflexivity.
Qed.

Lemma filter_length_le {A} (p : A -> bool) (l : list A) :
  (length (List.filter p l) <= length l)%nat.
Proof.
  induction l as [| x l IH]; simpl; [lia |]. destruct (p x); simpl; lia.
Qed.

(* One event keeps the bound. *)
Lemma step_queue_bound (s : State) (op : Op) :
  (length (queue s) <= 5)%nat -> (length (queue (step s op)) <= 5)%nat.
Proof.
  intros H. destruct op; simpl; try exact H.
  - destruct (ambientOn s); [| exact H].
    destruct (ambientTick_queue hour d queuedAt triggerAt s)
      as [-> | (lesson & context & ->)]; [exact H |].
    now apply enqueueUpdater_length.
  - unfold manualTrigger. destruct (manualPick _ _ _); [| exact H].
    simpl. now apply manualUpdater_length.
  - etransitivity; [apply filter_length_le | exact H].
  - unfold handleMarkDone. destruct (currentLesson s); [exact H | exact H].
  - lia.
  - unfold addEnvTag. destruct (_ && _); exact H.
Qed.

(** C3, as stated, for the manual trigger: the queue holds e1, s1, a1, c1
    and p1; a manual trigger for the tag Habit selects h1, which is not
    queued, and the queue afterwards starts with h1 and has lost p1. *)
Lemma manual_trigger_at_capacity_evicts :
  map LessonItem.id (queue fullState) = ["e1"; "s1"; "a1"; "c1"; "p1"]
  /\ manualPick "Habit" (Profile.skills (profile fullState)) 0 = Some lesson_h1
  /\ queued lesson_h1 (queue fullState) = false
  /\ map LessonItem.id (queue (manualTrigger "Habit" 0 0 6000 6000 fullState))
     = ["h1"; "e1"; "s1"; "a1"; "c1"]
  /\ queue (manualTrigger "Habit" 0 0 6000 6000 fullState) <> queue fullState.
Proof.
  repeat split; try reflexivity.
  intros H. apply (f_equal (map LessonItem.id)) in H.
  vm_compute in H. discriminate H.
Qed.

(** C3, amended: with five entries in the queue and a lesson that is not
    queued, the automatic enqueue leaves the queue as it is; the manual
    trigger that selects that lesson puts the new item in front of the
    first four entries and drops the fifth, so the queue still has five
    entries. *)
Theorem insertion_at_capacity (s : State) (lesson : Lesson.t)
    (context : Context.t) (hour : Z) (d : TickDraws) (tag : string)
    (rMood rPick : Q) (queuedAt triggerAt : Z) :
  length (queue s) = 5%nat ->
  ~ In (Lesson.id lesson) (map LessonItem.id (queue s)) ->
  queue (enqueueLesson lesson context queuedAt triggerAt s) = queue s
  /\ queue (ambientTick hour d queuedAt triggerAt s) = queue s
  /\ (manualPick tag (Profile.skills (profile s)) rPick = Some lesson ->
      queue (manualTrigger tag rMood rPick queuedAt triggerAt s)
      = newItem lesson (manualContext tag rMood s) queuedAt :: take 4 (queue s)
      /\ length (queue (manualTrigger tag rMood rPick queuedAt triggerAt s)) = 5%nat).
Proof.
  intros Hlen Hfresh. apply queued_false_not_In in Hfresh. split; [| split].
  - simpl. apply enqueueUpdater_full. lia.
  - destruct (ambientTick_queue hour d queuedAt triggerAt s)
      as [H | (lesson' & context' & H)]; rewrite H; [reflexivity |].
    apply enqueueUpdater_full. lia.
  - intros Hpick. unfold manualTrigger. rewrite Hpick. simpl.
    rewrite (manualUpdater_fresh _ _ _ _ Hfresh). split; [reflexivity |].
    simpl. rewrite length_take. lia.
Qed.

Lemma insertion_at_capacity_witness :
  queue (enqueueLesson lesson_h1 (manualContext "Habit" 0 fullState) 6000 6000 fullState)
  = queue fullState
  /\ map LessonItem.id (queue (manualTrigger "Habit" 0 0 6000 6000 fullState))
     = ["h1"; "e1"; "s1"; "a1"; "c1"].
Proof.
  destruct (insertion_at_capacity fullState lesson_h1
              (manualContext "Habit" 0 fullState) 9
              {| rMood := 0; rIdle := 0; rWaiting := 0; rLocation := 0;
                 rPick := 0; rFallback := 0 |}
              "Habit" 0 0 6000 6000)
    as (Hauto & _ & Hmanual).
  - reflexivity.
  - vm_compute. intuition discriminate.
  - split; [exact Hauto |].
    destruct (Hmanual eq_refl) as [-> _]. reflexivity.
Defined.

(** C4: whatever localStorage held at start-up and whatever events follow
    (timer ticks, manual triggers, opening, dismissing, completing,
    resetting, tag edits, toggles, location fixes), the queue has at most
    five entries after each of them. *)
Theorem queue_never_exceeds_five (storedAmbientOn : bool)
    (storedLessonsSeen : gmap string nat) (storedEnvTags : list string)
    (ops : list Op) :
  (length (queue (run (initialState storedAmbientOn storedLessonsSeen storedEnvTags)
                      ops)) <= 5)%nat.
Proof.
  unfold run.
  assert (Hinit : (length (queue (initialState storedAmbientOn storedLessonsSeen
                                               storedEnvTags)) <= 5)%nat)
    by (simpl; lia).
  revert Hinit.
  generalize (initialState storedAmbientOn storedLessonsSeen storedEnvTags).
  induction ops as [| op ops IH]; intros s Hs; simpl; [exact Hs |].
  apply IH. now apply step_queue_bound.
Qed.

(** C8: when the lesson's identifier already occurs in the queue, the
    automatic enqueue and the manual trigger that selects this lesson both
    return the queue they were given: every entry, with its timestamp and
    context, stays where it was. *)
Theorem insertion_of_queued_lesson (s : State) (lesson : Lesson.t)
    (context : Context.t) (tag : string) (rMood rPick : Q)
    (queuedAt triggerAt : Z) :
  In (Lesson.id lesson) (map LessonItem.id (queue s)) ->
  queue (enqueueLesson lesson context queuedAt triggerAt s) = queue s
  /\ (manualPick tag (Profile.skills (profile s)) rPick = Some lesson ->
      queue (manualTrigger tag rMood rPick queuedAt triggerAt s) = queue s).
Proof.
  intros Hq. apply queued_In in Hq. split.
  - simpl. now apply enqueueUpdater_queued.
  - intros Hpick. unfold manualTrigger. rewrite Hpick. simpl.
    now apply manualUpdater_queued.
Qed.

Lemma insertion_of_queued_lesson_witness :
  queue (enqueueLesson lesson_p1 (manualContext "Focus" 0 oneQueued) 7000 7000 oneQueued)
  = queue oneQueued
  /\ queue (manualTrigger "Focus" 0 0 7000 7000 oneQueued) = queue oneQueued
  /\ map LessonItem.triggeredAt (queue oneQueued) = [Some 1000%Z].
Proof.
  destruct (insertion_of_queued_lesson oneQueued lesson_p1
              (manualContext "Focus" 0 oneQueued) "Focus" 0 0 7000 7000)
    as [Hauto Hmanual].
  - vm_compute. auto.
  - split; [exact Hauto | split; [exact (Hmanual eq_refl) | reflexivity]].
Defined.

(** C10: a timer tick or a manual trigger that selects a lesson records
    that lesson's identifier and the clock reading as the last trigger, in
    every state: also when the lesson is already queued or the queue is
    full, where the queue itself is left as it was. *)
Theorem last_trigger_always_recorded (s : State) (lesson : Lesson.t)
    (hour : Z) (d : TickDraws) (tag : string) (manualMood manualDraw : Q)
    (queuedAt triggerAt : Z) :
  (pickLessonForContext
     (buildSimulatedContext hour d (envTags s) (lastLocation s))
     (Profile.skills (profile s)) (lessonsSeen s) (rPick d) (rFallback d)
   = Some lesson ->
   lastTrigger (ambientTick hour d queuedAt triggerAt s)
   = Some {| lessonId := Lesson.id lesson; at_ := triggerAt |})
  /\ (manualPick tag (Profile.skills (profile s)) manualDraw = Some lesson ->
      lastTrigger (manualTrigger tag manualMood manualDraw queuedAt triggerAt s)
      = Some {| lessonId := Lesson.id lesson; at_ := triggerAt |}).
Proof.
  split; intros Hpick.
  - unfold ambientTick. rewrite Hpick. reflexivity.
  - unfold manualTrigger. rewrite Hpick. reflexivity.
Qed.

Lemma last_trigger_always_recorded_witness :
  (lastTrigger (ambientTick 9 quietDraws 8000 8001 fullState)
   = Some {| lessonId := "p1"; at_ := 8001 |}
   /\ queue (ambientTick 9 quietDraws 8000 8001 fullState) = queue fullState)
  /\ (lastTrigger (manualTrigger "Focus" 0 0 8000 8001 fullState)
      = Some {| lessonId := "p1"; at_ := 8001 |}
      /\ queue (manualTrigger "Focus" 0 0 8000 8001 fullState) = queue fullState).
Proof.
  destruct (last_trigger_always_recorded fullState lesson_p1 9 quietDraws
              "Focus" 0 0 8000 8001) as [Hauto Hmanual].
  split; split.
  - exact (Hauto eq_refl).
  - reflexivity.
  - exact (Hmanual eq_refl).
  - reflexivity.
Defined.

(* --------------------------------------------------------------------- *)
(*  Opening a lesson                                                      *)
(* --------------------------------------------------------------------- *)

Section Filter.
Context {A : Type} (p : A -> bool).

Lemma filter_sublist (l : list A) : sublist (List.filter p l) l.
Proof.
  induction l as [| x l IH]; simpl; [constructor |].
  destruct (p x); now constructor.
Qed.

Lemma filter_all_pass (l : list A) : Forall (fun x => p x = true) (List.filter p l).
Proof.
  apply List.Forall_forall. intros x Hx. now apply filter_In in Hx.
Qed.

(* filter p l is the largest sublist of l whose elements all pass p. *)
Lemma filter_greatest (kept l : list A) :
  sublist kept l -> Forall (fun x => p x = true) kept ->
  sublist kept (List.filter p l).
Proof.
  induction 1 as [| x l1 l2 Hsub IH | x l1 l2 Hsub IH]; intros Hall; simpl.
  - constructor.
  - inversion Hall as [| ? ? Hx Hrest]; subst. rewrite Hx.
    constructor. now apply IH.
  - destruct (p x); [constructor |]; now apply IH.
Qed.

End Filter.

Lemma id_differs (x lesson : LessonItem.t) :
  negb (String.eqb (LessonItem.id x) (LessonItem.id lesson)) = true
  <-> LessonItem.id x <> LessonItem.id lesson.
Proof.
  rewrite negb_true_iff. apply String.eqb_neq.
Qed.

(** C5: opening a lesson displays it, adds 1 to its seen counter (an absent
    counter counts as 0) and leaves the other counters alone, adds the
    lesson's reward to the experience points and 1 to the streak, and
    turns the queue into its largest sublist without an entry of that
    identifier: those entries are gone, the others stay, unchanged and in
    their order. *)
Theorem showLesson_effects (s : State) (lesson : LessonItem.t) :
  let s' := showLesson lesson s in
  let id := LessonItem.id lesson in
  currentLesson s' = Some lesson
  /\ (lessonsSeen s !! id = None -> lessonsSeen s' !! id = Some 1%nat)
  /\ (forall n, lessonsSeen s !! id = Some n -> lessonsSeen s' !! id = Some (n + 1)%nat)
  /\ (forall other, other <> id -> lessonsSeen s' !! other = lessonsSeen s !! other)
  /\ Profile.xp (profile s') = (Profile.xp (profile s) + LessonItem.xp lesson)%nat
  /\ Profile.streak (profile s') = (Profile.streak (profile s) + 1)%nat
  /\ Forall (fun x => LessonItem.id x <> id) (queue s')
  /\ sublist (queue s') (queue s)
  /\ (forall kept, sublist kept (queue s) ->
        Forall (fun x => LessonItem.id x <> id) kept ->
        sublist kept (queue s')).
Proof.
  cbv zeta. repeat split.
  - intros Hnone. simpl. rewrite lookup_insert_eq, Hnone. reflexivity.
  - intros n Hn. simpl. rewrite lookup_insert_eq, Hn. reflexivity.
  - intros other Hne. simpl. now rewrite lookup_insert_ne.
  - simpl. eapply Forall_impl; [apply filter_all_pass |].
    intros x Hx. now apply id_differs.
  - simpl. apply filter_sublist.
  - intros kept Hsub Hall. simpl. apply filter_greatest; [exact Hsub |].
    eapply Forall_impl; [exact Hall |]. intros x Hx. now apply id_differs.
Qed.

(* --------------------------------------------------------------------- *)
(*  The selector                                                          *)
(* --------------------------------------------------------------------- *)

(* Whatever the weights and the draw are, a lesson returned by the loop is
   one of the weighted candidates. *)
Lemma walk_In (weightedCandidates : list (Lesson.t * Q)) (random : Q)
    (lesson : Lesson.t) :
  walk weightedCandidates random = Some lesson ->
  In lesson (map fst weightedCandidates).
Proof.
  revert random.
  induction weightedCandidates as [| [l w] rest IH]; intros random; simpl.
  - discriminate.
  - destruct (less random w).
    + intros [= ->]. now left.
    + intros H. right. eapply IH; exact H.
Qed.

Lemma candidates_catalog (context : Context.t) (skills : list string)
    (lesson : Lesson.t) :
  In lesson (candidates context skills) -> In lesson LESSONS.
Proof. intros H. now apply candidates_In in H. Qed.

Lemma pickLessonForContext_In (context : Context.t) (skills : list string)
    (seen : gmap string nat) (weighted fallback : Q) (lesson : Lesson.t) :
  pickLessonForContext context skills seen weighted fallback = Some lesson ->
  In lesson LESSONS.
Proof.
  unfold pickLessonForContext.
  set (wc := map _ (candidates context skills)).
  destruct (if (0 <? length wc)%nat then _ else None) as [found |] eqn:Hfound.
  - intros [= ->]. destruct (0 <? length wc)%nat; [| discriminate].
    apply walk_In in Hfound. subst wc.
    rewrite map_map, map_id in Hfound. now apply candidates_catalog in Hfound.
  - unfold randomElement. apply index_Some_In.
Qed.

(** C6: for every context, skill list and seen-counter map, and every
    value Math.random() can return (0 <= r < 1), the selector returns a
    lesson, never null, and that lesson is one of the six of the catalog. *)
Theorem selector_returns_catalog_lesson (context : Context.t)
    (skills : list string) (seen : gmap string nat) (weighted fallback : Q) :
  (0 <= fallback)%Q -> (fallback < 1)%Q ->
  length LESSONS = 6%nat
  /\ exists lesson,
       pickLessonForContext context skills seen weighted fallback = Some lesson
       /\ In lesson LESSONS.
Proof.
  intros Hlo Hhi. split; [reflexivity |].
  destruct (pickLessonForContext context skills seen weighted fallback)
    as [lesson |] eqn:Hpick.
  - exists lesson. split; [reflexivity |].
    eapply pickLessonForContext_In; exact Hpick.
  - exfalso. unfold pickLessonForContext in Hpick.
    destruct (if (0 <? length _)%nat then _ else None); [discriminate |].
    destruct (randomElement_Some LESSONS fallback Hlo Hhi) as (x & Hx & _).
    + simpl. lia.
    + congruence.
Qed.

(* No tag matches (no environment tags, no skills), so the candidate list
   is empty and the fallback draw decides. *)
Lemma selector_returns_catalog_lesson_witness :
  exists lesson,
    pickLessonForContext (Context.mk evening ["Evening"; "Relaxed"] None "Relaxed")
                         [] ∅ (1 # 2) (5 # 6) = Some lesson
    /\ In lesson LESSONS.
Proof.
  apply (selector_returns_catalog_lesson
           (Context.mk evening ["Evening"; "Relaxed"] None "Relaxed")
           [] ∅ (1 # 2) (5 # 6)); unfold Qle, Qlt; simpl; lia.
Defined.

(* --------------------------------------------------------------------- *)
(*  Completing and resetting                                              *)
(* --------------------------------------------------------------------- *)

(** C7: while a lesson is displayed, marking it complete adds the lesson's
    reward to the experience points once more; opening a lesson and then
    completing it adds twice its reward in total. *)
Theorem mark_done_credits_again (s opened : State) (current lesson : LessonItem.t) :
  currentLesson s = Some current ->
  Profile.xp (profile (handleMarkDone s))
  = (Profile.xp (profile s) + LessonItem.xp current)%nat
  /\ Profile.xp (profile (handleMarkDone (showLesson lesson opened)))
     = (Profile.xp (profile opened) + 2 * LessonItem.xp lesson)%nat.
Proof.
  intros Hcur. split.
  - unfold handleMarkDone. rewrite Hcur. reflexivity.
  - unfold handleMarkDone. simpl. lia.
Qed.

Lemma mark_done_credits_again_witness :
  Profile.xp (profile (handleMarkDone
     (showLesson (LessonItem.mk lesson_p1 None None)
                 (initialState false ∅ DEFAULT_ENV_TAGS)))) = 295%nat.
Proof.
  exact (proj2 (mark_done_credits_again
                  (showLesson (LessonItem.mk lesson_p1 None None)
                              (initialState false ∅ DEFAULT_ENV_TAGS))
                  (initialState false ∅ DEFAULT_ENV_TAGS)
                  (LessonItem.mk lesson_p1 None None)
                  (LessonItem.mk lesson_p1 None None) eq_refl)).
Defined.

(** C9: in every state, resetting puts back the literal initial profile
    (name Alex Chen, five skills, 245 experience points, streak 14, level
    7), empties the queue and the seen counters, and sets the environment
    tags to the three defaults Focus, Learning and Wellness. *)
Theorem resetDemo_restores_defaults (s : State) :
  let s' := resetDemo s in
  profile s' = INITIAL_PROFILE
  /\ Profile.name (profile s') = "Alex Chen"
  /\ length (Profile.skills (profile s')) = 5%nat
  /\ Profile.xp (profile s') = 245%nat
  /\ Profile.streak (profile s') = 14%nat
  /\ Profile.level (profile s') = 7%nat
  /\ queue s' = []
  /\ lessonsSeen s' = ∅
  /\ envTags s' = ["Focus"; "Learning"; "Wellness"]
  /\ currentLesson s' = None.
Proof. cbv zeta. repeat split. Qed.

(* --------------------------------------------------------------------- *)
(*  The queue never holds two entries of one lesson                       *)
(* --------------------------------------------------------------------- *)

Lemma sublist_map {A B} (f : A -> B) (l1 l2 : list A) :
  sublist l1 l2 -> sublist (map f l1) (map f l2).
Proof.
  induction 1 as [| x l1 l2 Hsub IH | x l1 l2 Hsub IH]; simpl.
  - apply sublist_nil.
  - apply sublist_skip, IH.
  - apply sublist_cons, IH.
Qed.

Lemma distinctIds_sublist (kept q : list LessonItem.t) :
  sublist kept q -> distinctIds q -> distinctIds kept.
Proof.
  intros Hsub Hq. eapply sublist_NoDup; [exact Hq |]. now apply sublist_map.
Qed.

Lemma distinctIds_cons lesson context now (q : list LessonItem.t) :
  queued lesson q = false -> distinctIds q ->
  distinctIds (newItem lesson context now :: q).
Proof.
  intros Hfresh Hq. apply queued_false_not_In in Hfresh.
  unfold distinctIds. simpl. apply NoDup_cons. split; [| exact Hq].
  now rewrite list_elem_of_In.
Qed.

Lemma enqueueUpdater_distinct lesson context now (q : list LessonItem.t) :
  distinctIds q -> distinctIds (enqueueUpdater lesson context now q).
Proof.
  intros Hq. unfold enqueueUpdater.
  destruct (5 <=? length q)%nat; [exact Hq |].
  destruct (queued lesson q) eqn:Hfresh; [exact Hq |].
  now apply distinctIds_cons.
Qed.

Lemma manualUpdater_distinct lesson context now (q : list LessonItem.t) :
  distinctIds q -> distinctIds (manualUpdater lesson context now q).
Proof.
  intros Hq. unfold manualUpdater.
  destruct (queued lesson q) eqn:Hfresh; [exact Hq |].
  eapply distinctIds_sublist; [apply sublist_take |].
  now apply distinctIds_cons.
Qed.

Lemma step_distinct (s : State) (op : Op) :
  distinctIds (queue s) -> distinctIds (queue (step s op)).
Proof.
  intros H. destruct op; simpl; try exact H.
  - destruct (ambientOn s); [| exact H].
    destruct (ambientTick_queue hour d queuedAt triggerAt s)
      as [-> | (lesson & context & ->)]; [exact H |].
    now apply enqueueUpdater_distinct.
  - unfold manualTrigger. destruct (manualPick _ _ _); [| exact H].
    simpl. now apply manualUpdater_distinct.
  - eapply distinctIds_sublist; [apply filter_sublist | exact H].
  - unfold handleMarkDone. destruct (currentLesson s); exact H.
  - constructor.
  - unfold addEnvTag. destruct (_ && _); exact H.
Qed.

(** X19: in every reachable state the identifiers of the queue entries are
    pairwise distinct: no lesson is queued twice, whatever ticks, manual
    triggers, opens and resets happened. *)
Lemma run_distinct (storedAmbientOn : bool) (storedLessonsSeen : gmap string nat)
    (storedEnvTags : list string) (ops : list Op) :
  distinctIds (queue (run (initialState storedAmbientOn storedLessonsSeen
                                        storedEnvTags) ops)).
Proof.
  unfold run.
  assert (Hinit : distinctIds (queue (initialState storedAmbientOn
                                        storedLessonsSeen storedEnvTags)))
    by constructor.
  revert Hinit.
  generalize (initialState storedAmbientOn storedLessonsSeen storedEnvTags).
  induction ops as [| op ops IH]; intros s Hs; simpl; [exact Hs |].
  apply IH. now apply step_distinct.
Qed.

(* --------------------------------------------------------------------- *)
(*  What the engine leaves alone                                          *)
(* --------------------------------------------------------------------- *)

Lemma ambientTick_frame hour d queuedAt triggerAt (s : State) :
  let s' := ambientTick hour d queuedAt triggerAt s in
  ambientOn s' = ambientOn s /\ lessonsSeen s' = lessonsSeen s
  /\ profile s' = profile s /\ currentLesson s' = currentLesson s
  /\ envTags s' = envTags s /\ lastLocation s' = lastLocation s.
Proof.
  cbv zeta. unfold ambientTick.
  destruct (pickLessonForContext _ _ _ _ _); simpl; repeat split.
Qed.

Lemma manualTrigger_frame tag moodDraw pickDraw queuedAt triggerAt (s : State) :
  let s' := manualTrigger tag moodDraw pickDraw queuedAt triggerAt s in
  ambientOn s' = ambientOn s /\ lessonsSeen s' = lessonsSeen s
  /\ profile s' = profile s /\ currentLesson s' = currentLesson s
  /\ envTags s' = envTags s /\ lastLocation s' = lastLocation s.
Proof.
  cbv zeta. unfold manualTrigger.
  destruct (manualPick _ _ _); simpl; repeat split.
Qed.

(* Events other than opening, completing, dismissing and resetting keep
   the profile, the seen counters and the lesson on display. *)
Lemma step_frame (s : State) (op : Op) :
  match op with
  | OpShowLesson _ | OpMarkDone | OpDismiss | OpReset => True
  | _ => profile (step s op) = profile s
         /\ lessonsSeen (step s op) = lessonsSeen s
         /\ currentLesson (step s op) = currentLesson s
  end.
Proof.
  destruct op as [hour d queuedAt triggerAt
                 | tag moodDraw pickDraw queuedAt triggerAt
                 | lesson | | | | | trimmed | tag | c];
    simpl; try exact I; try (repeat split; fail).
  - destruct (ambientOn s); [| repeat split].
    pose proof (ambientTick_frame hour d queuedAt triggerAt s) as H.
    cbv zeta in H. tauto.
  - pose proof (manualTrigger_frame tag moodDraw pickDraw queuedAt triggerAt s) as H.
    cbv zeta in H. tauto.
  - unfold addEnvTag. destruct (_ && _); repeat split.
Qed.

Lemma run_snoc (s : State) (ops : list Op) (op : Op) :
  run s (ops ++ [op]) = step (run s ops) op.
Proof. unfold run. now rewrite fold_left_app. Qed.

Lemma sinceReset_snoc (ops : list Op) (op : Op) :
  sinceReset (ops ++ [op]) = if isReset op then [] else sinceReset ops ++ [op].
Proof. unfold sinceReset. now rewrite fold_left_app. Qed.

Lemma hasReset_snoc (ops : list Op) (op : Op) :
  hasReset (ops ++ [op]) = hasReset ops || isReset op.
Proof. unfold hasReset. rewrite existsb_app. simpl. now rewrite orb_false_r. Qed.

Lemma opened_snoc (ops : list Op) (op : Op) :
  opened (ops ++ [op])
  = opened ops ++ match op with OpShowLesson l => [l] | _ => [] end.
Proof. unfold opened. rewrite flat_map_app. simpl. now rewrite app_nil_r. Qed.

Lemma timesOpened_snoc (id : string) (ops : list Op) (op : Op) :
  timesOpened id (ops ++ [op])
  = (timesOpened id ops
     + match op with
       | OpShowLesson l => if String.eqb (LessonItem.id l) id then 1 else 0
       | _ => 0
       end)%nat.
Proof.
  unfold timesOpened. rewrite opened_snoc, List.filter_app, length_app.
  f_equal. destruct op; try reflexivity. simpl.
  now destruct (String.eqb (LessonItem.id lesson) id).
Qed.

Lemma rewardsOpened_snoc (ops : list Op) (op : Op) :
  rewardsOpened (ops ++ [op])
  = (rewardsOpened ops
     + match op with OpShowLesson l => LessonItem.xp l | _ => 0 end)%nat.
Proof.
  unfold rewardsOpened. rewrite opened_snoc, map_app, list_sum_app.
  f_equal. destruct op; simpl; lia.
Qed.

(* The identity fields of the profile never move. *)
Lemma step_identity (s : State) (op : Op) :
  let p := profile s in
  let p' := profile (step s op) in
  (Profile.name p', Profile.skills p', Profile.level p')
  = (Profile.name p, Profile.skills p, Profile.level p)
  \/ p' = INITIAL_PROFILE.
Proof.
  cbv zeta. pose proof (step_frame s op) as Hframe.
  destruct op; try (destruct Hframe as (-> & _); now left).
  - now left.
  - left. simpl. unfold dismissLesson. reflexivity.
  - left. simpl. unfold handleMarkDone. now destruct (currentLesson s).
  - now right.
Qed.

Lemma run_identity (start : State) (ops : list Op) :
  profile start = INITIAL_PROFILE ->
  let p := profile (run start ops) in
  Profile.name p = Profile.name INITIAL_PROFILE
  /\ Profile.skills p = Profile.skills INITIAL_PROFILE
  /\ Profile.level p = Profile.level INITIAL_PROFILE.
Proof.
  intros Hstart. cbv zeta. induction ops as [| op ops IH] using rev_ind.
  - change (run start []) with start. rewrite Hstart. repeat split.
  - rewrite run_snoc.
    destruct (step_identity (run start ops) op) as [Hsame | ->]; [| repeat split].
    cbv zeta in Hsame. injection Hsame as -> -> ->. exact IH.
Qed.

(** X1: every handler keeps the profile's name, skill list and level: in
    every reachable state they are the initial literals, so the stored
    level stays 7 however many experience points are earned. *)
Theorem profile_identity_never_changes (storedAmbientOn : bool)
    (storedLessonsSeen : gmap string nat) (storedEnvTags : list string)
    (ops : list Op) :
  let p := profile (run (initialState storedAmbientOn storedLessonsSeen
                                      storedEnvTags) ops) in
  Profile.name p = "Alex Chen"
  /\ Profile.skills p
     = ["Productivity"; "AI Literacy"; "Culinary Arts"; "Mindfulness"; "Finance"]
  /\ Profile.level p = 7%nat.
Proof.
  exact (run_identity (initialState storedAmbientOn storedLessonsSeen storedEnvTags)
                      ops eq_refl).
Qed.

(* --------------------------------------------------------------------- *)
(*  Streak, experience points and seen counters over a run                *)
(* --------------------------------------------------------------------- *)

Section Accounting.
Variables (storedAmbientOn : bool) (storedLessonsSeen : gmap string nat)
          (storedEnvTags : list string).

Let start : State := initialState storedAmbientOn storedLessonsSeen storedEnvTags.

Local Ltac four_parts := split; [| split; [| split]].

Lemma accounted_always (ops : list Op) :
  accounted storedAmbientOn storedLessonsSeen storedEnvTags ops.
Proof.
  unfold accounted. cbv zeta. fold start.
  induction ops as [| op ops (Hstreak & Hlow & Hhigh & Hseen)] using rev_ind.
  - cbn -[Nat.add Nat.mul]. four_parts; [lia | lia | lia |]. intros id. unfold timesOpened. cbn -[Nat.add Nat.mul]. lia.
  - rewrite run_snoc, sinceReset_snoc.
    pose proof (step_frame (run start ops) op) as Hframe.
    set (s := run start ops) in *.
    assert (Hother :
      isReset op = false ->
      (forall l, op <> OpShowLesson l) ->
      profile (step s op) = profile s ->
      lessonsSeen (step s op) = lessonsSeen s ->
      (pendingReward (step s op) <= pendingReward s)%nat ->
      Profile.streak (profile (step s op))
      = (14 + length (opened (sinceReset ops ++ [op])))%nat
      /\ (245 + rewardsOpened (sinceReset ops ++ [op])
          <= Profile.xp (profile (step s op)))%nat
      /\ (Profile.xp (profile (step s op)) + pendingReward (step s op)
          <= 245 + 2 * rewardsOpened (sinceReset ops ++ [op]))%nat
      /\ forall id,
           default 0%nat (lessonsSeen (step s op) !! id)
           = ((if hasReset (ops ++ [op]) then 0
               else default 0 (storedLessonsSeen !! id))
              + timesOpened id (sinceReset ops ++ [op]))%nat).
    { intros Hnr Hns Hp Hl Hpend.
      rewrite Hp, Hl, opened_snoc, rewardsOpened_snoc.
      assert (Hnil : match op with OpShowLesson l => [l] | _ => [] end = [])
        by (destruct op; try reflexivity; now destruct (Hns lesson)).
      assert (Hzero : match op with OpShowLesson l => LessonItem.xp l | _ => 0%nat end
                      = 0%nat)
        by (destruct op; try reflexivity; now destruct (Hns lesson)).
      rewrite Hnil, Hzero, app_nil_r. four_parts; [lia | lia | lia |].
      intros id. rewrite hasReset_snoc, Hnr, orb_false_r, timesOpened_snoc, Hseen.
      destruct op; try lia. now destruct (Hns lesson). }
    destruct op as [hour d queuedAt triggerAt
                   | tag moodDraw pickDraw queuedAt triggerAt
                   | lesson | | | | | trimmed | tag | c];
      try (destruct Hframe as (Hp & Hl & Hc);
           apply Hother; [reflexivity | discriminate | exact Hp | exact Hl |];
           unfold pendingReward; rewrite Hc; lia).
    + (* opening a lesson *)
      cbn [isReset]. rewrite opened_snoc, rewardsOpened_snoc, length_app.
      unfold pendingReward in *. cbn -[Nat.add Nat.mul]. four_parts; [lia | lia | lia |].
      intros id. specialize (Hseen id).
      rewrite hasReset_snoc, orb_false_r, timesOpened_snoc.
      destruct (String.eqb_spec (LessonItem.id lesson) id) as [<- | Hne].
      * rewrite lookup_insert_eq. cbn -[Nat.add Nat.mul]. lia.
      * rewrite lookup_insert_ne by exact Hne. lia.
    + (* dismissing *)
      apply Hother; try reflexivity; try discriminate.
      unfold pendingReward. cbn -[Nat.add Nat.mul]. lia.
    + (* completing *)
      cbn [isReset step]. unfold handleMarkDone, pendingReward in *.
      rewrite opened_snoc, rewardsOpened_snoc, app_nil_r.
      destruct (currentLesson s) as [current |] eqn:Hcur; cbn -[Nat.add Nat.mul];
        rewrite ?Hcur; four_parts; try lia;
        intros id; rewrite hasReset_snoc, orb_false_r, timesOpened_snoc, Hseen; lia.
    + (* resetting *)
      cbn [isReset step]. unfold pendingReward. cbn -[Nat.add Nat.mul]. four_parts; [lia | lia | lia |].
      intros id. rewrite hasReset_snoc, orb_true_r, lookup_empty.
      unfold timesOpened. cbn -[Nat.add Nat.mul]. lia.
Qed.

End Accounting.

(** X2: from the state after mounting, the streak is 14 plus the number of
    lessons opened since the last reset: opening is the only event that
    moves it, by one each time. *)
Theorem streak_counts_opens (storedAmbientOn : bool)
    (storedLessonsSeen : gmap string nat) (storedEnvTags : list string)
    (ops : list Op) :
  Profile.streak (profile (run (initialState storedAmbientOn storedLessonsSeen
                                             storedEnvTags) ops))
  = (14 + length (opened (sinceReset ops)))%nat.
Proof.
  exact (proj1 (accounted_always storedAmbientOn storedLessonsSeen storedEnvTags ops)).
Qed.

(** X3: from the state after mounting, the experience points lie between
    245 plus the rewards of the lessons opened since the last reset and
    245 plus twice those rewards: every open credits its reward once and
    can be credited at most once more by marking it complete. *)
Theorem xp_between_once_and_twice (storedAmbientOn : bool)
    (storedLessonsSeen : gmap string nat) (storedEnvTags : list string)
    (ops : list Op) :
  let xp := Profile.xp (profile (run (initialState storedAmbientOn storedLessonsSeen
                                                   storedEnvTags) ops)) in
  (245 + rewardsOpened (sinceReset ops) <= xp)%nat
  /\ (xp <= 245 + 2 * rewardsOpened (sinceReset ops))%nat.
Proof.
  cbv zeta.
  destruct (accounted_always storedAmbientOn storedLessonsSeen storedEnvTags ops)
    as (_ & Hlow & Hhigh & _).
  split; [exact Hlow | lia].
Qed.

(** X4: from the state after mounting, the seen counter of a lesson (0 when
    absent) is the number of times it was opened since the last reset,
    added to the stored counter when there was no reset and to 0 after a
    reset; queueing a lesson never counts. *)
Theorem seen_counts_opens (storedAmbientOn : bool)
    (storedLessonsSeen : gmap string nat) (storedEnvTags : list string)
    (ops : list Op) (id : string) :
  default 0%nat (lessonsSeen (run (initialState storedAmbientOn storedLessonsSeen
                                                storedEnvTags) ops) !! id)
  = ((if hasReset ops then 0 else default 0 (storedLessonsSeen !! id))
     + timesOpened id (sinceReset ops))%nat.
Proof.
  destruct (accounted_always storedAmbientOn storedLessonsSeen storedEnvTags ops)
    as (_ & _ & _ & Hseen).
  apply Hseen.
Qed.

(* --------------------------------------------------------------------- *)
(*  Completing                                                            *)
(* --------------------------------------------------------------------- *)

(** X5: marking complete closes the lesson, so a second mark-complete (or
    one with no lesson on display) changes nothing: one open cannot be
    completed twice. *)
Theorem handleMarkDone_once (s : State) :
  currentLesson (handleMarkDone s) = None
  /\ handleMarkDone (handleMarkDone s) = handleMarkDone s
  /\ handleMarkDone (dismissLesson s) = dismissLesson s.
Proof.
  unfold handleMarkDone.
  destruct (currentLesson s) as [current |] eqn:Hcur; simpl; rewrite ?Hcur;
    repeat split.
Qed.

(* --------------------------------------------------------------------- *)
(*  Environment tags                                                      *)
(* --------------------------------------------------------------------- *)

Lemma filter_NoDup_strings (p : string -> bool) (l : list string) :
  NoDup l -> NoDup (List.filter p l).
Proof.
  intros H. eapply sublist_NoDup; [exact H | apply filter_sublist].
Qed.

Lemma step_envTags (s : State) (op : Op) :
  NoDup (envTags s) /\ ~ In "" (envTags s) ->
  NoDup (envTags (step s op)) /\ ~ In "" (envTags (step s op)).
Proof.
  intros [Hnd Hne].
  destruct op as [hour d queuedAt triggerAt
                 | tag moodDraw pickDraw queuedAt triggerAt
                 | lesson | | | | | trimmed | tag | c];
    simpl; try (split; assumption).
  - destruct (ambientOn s); [| split; assumption].
    pose proof (ambientTick_frame hour d queuedAt triggerAt s) as H.
    cbv zeta in H. destruct H as (_ & _ & _ & _ & -> & _). split; assumption.
  - pose proof (manualTrigger_frame tag moodDraw pickDraw queuedAt triggerAt s) as H.
    cbv zeta in H. destruct H as (_ & _ & _ & _ & -> & _). split; assumption.
  - unfold handleMarkDone. destruct (currentLesson s); split; assumption.
  - split.
    + repeat (apply NoDup_cons; split; [rewrite list_elem_of_In; simpl;
                                        intuition discriminate |]).
      apply NoDup_nil_2.
    + simpl. intuition discriminate.
  - unfold addEnvTag.
    destruct (String.eqb_spec trimmed "") as [-> | Hnonempty]; simpl;
      [split; assumption |].
    destruct (includes (envTags s) trimmed) eqn:Hinc; simpl; [split; assumption |].
    split.
    + apply NoDup_cons. split; [| exact Hnd].
      rewrite list_elem_of_In, <- includes_In, Hinc. discriminate.
    + intros [H | H]; [now apply Hnonempty | now apply Hne].
  - split; [now apply filter_NoDup_strings |].
    intros H. apply filter_In in H. now apply Hne.
Qed.

(** X6: when the stored environment tags are distinct and none is empty,
    they stay so in every reachable state: addEnvTag refuses an empty or
    already present tag, removeEnvTag and the reset keep the property. *)
Theorem envTags_distinct_nonempty (storedAmbientOn : bool)
    (storedLessonsSeen : gmap string nat) (storedEnvTags : list string)
    (ops : list Op) :
  NoDup storedEnvTags -> ~ In "" storedEnvTags ->
  NoDup (envTags (run (initialState storedAmbientOn storedLessonsSeen
                                    storedEnvTags) ops))
  /\ ~ In "" (envTags (run (initialState storedAmbientOn storedLessonsSeen
                                         storedEnvTags) ops)).
Proof.
  intros Hnd Hne. induction ops as [| op ops IH] using rev_ind.
  - split; assumption.
  - rewrite run_snoc. now apply step_envTags.
Qed.

Lemma envTags_distinct_nonempty_witness :
  NoDup (envTags (run (initialState false ∅ DEFAULT_ENV_TAGS)
                      [OpAddEnvTag "Cooking"; OpAddEnvTag "Focus";
                       OpRemoveEnvTag "Learning"; OpAddEnvTag ""]))
  /\ envTags (run (initialState false ∅ DEFAULT_ENV_TAGS)
                  [OpAddEnvTag "Cooking"; OpAddEnvTag "Focus";
                   OpRemoveEnvTag "Learning"; OpAddEnvTag ""])
     = ["Cooking"; "Focus"; "Wellness"].
Proof.
  split; [| reflexivity].
  apply (envTags_distinct_nonempty false ∅ DEFAULT_ENV_TAGS
           [OpAddEnvTag "Cooking"; OpAddEnvTag "Focus";
            OpRemoveEnvTag "Learning"; OpAddEnvTag ""]).
  - repeat (apply NoDup_cons; split; [rewrite list_elem_of_In; simpl;
                                      intuition discriminate |]).
    apply NoDup_nil_2.
  - simpl. intuition discriminate.
Defined.

Lemma filter_none_match {A} (p : A -> bool) (l : list A) :
  (forall x, In x l -> p x = true) -> List.filter p l = l.
Proof.
  induction l as [| x l IH]; intros H; simpl; [reflexivity |].
  rewrite (H x) by now left. f_equal. apply IH. intros y Hy. apply H. now right.
Qed.

(** X7: removing a tag leaves no occurrence of it and keeps the other tags
    in order; adding a tag that was absent and then removing it gives the
    tag list back. *)
Theorem removeEnvTag_undoes_addEnvTag (s : State) (tag : string) :
  ~ In tag (envTags (removeEnvTag tag s))
  /\ sublist (envTags (removeEnvTag tag s)) (envTags s)
  /\ (forall other, other <> tag -> In other (envTags s) ->
        In other (envTags (removeEnvTag tag s)))
  /\ (~ In tag (envTags s) ->
      envTags (removeEnvTag tag (addEnvTag tag s)) = envTags s).
Proof.
  assert (Hkeep : ~ In tag (envTags s) ->
                  List.filter (fun t => negb (String.eqb t tag)) (envTags s)
                  = envTags s).
  { intros Habsent. apply filter_none_match. intros x Hx.
    apply negb_true_iff, String.eqb_neq. intros ->. now apply Habsent. }
  split; [| split; [| split]].
  - simpl. intros H. apply filter_In in H. destruct H as [_ H].
    now rewrite String.eqb_refl in H.
  - simpl. apply filter_sublist.
  - intros other Hne Hin. simpl. apply filter_In. split; [exact Hin |].
    now apply negb_true_iff, String.eqb_neq.
  - intros Habsent. unfold addEnvTag.
    destruct (negb (String.eqb tag "") && negb (includes (envTags s) tag));
      simpl; [| now apply Hkeep].
    rewrite String.eqb_refl. simpl. now apply Hkeep.
Qed.

(* --------------------------------------------------------------------- *)
(*  Queueing and opening together                                         *)
(* --------------------------------------------------------------------- *)

Lemma filter_other_ids (id : string) (q : list LessonItem.t) :
  ~ In id (map LessonItem.id q) ->
  List.filter (fun x => negb (String.eqb (LessonItem.id x) id)) q = q.
Proof.
  intros Habsent. apply filter_none_match. intros x Hx.
  apply negb_true_iff, String.eqb_neq. intros Heq. apply Habsent.
  rewrite <- Heq. now apply in_map.
Qed.

(** X8: opening a lesson that is not queued leaves the queue as it is, and
    a lesson that the automatic enqueue has just put into a queue of fewer
    than five entries is taken out again by opening it: the queue is the
    one from before the enqueue. *)
Theorem open_after_enqueue_restores_queue (s : State) (lesson : Lesson.t)
    (context : Context.t) (queuedAt triggerAt : Z) :
  ~ In (Lesson.id lesson) (map LessonItem.id (queue s)) ->
  (forall item, LessonItem.id item = Lesson.id lesson ->
                queue (showLesson item s) = queue s)
  /\ ((length (queue s) < 5)%nat ->
      queue (enqueueLesson lesson context queuedAt triggerAt s)
      = newItem lesson context queuedAt :: queue s
      /\ queue (showLesson (newItem lesson context queuedAt)
                  (enqueueLesson lesson context queuedAt triggerAt s))
         = queue s).
Proof.
  intros Hfresh. split.
  - intros item Hid. simpl. rewrite Hid. now apply filter_other_ids.
  - intros Hroom.
    assert (Hq : enqueueUpdater lesson context queuedAt (queue s)
                 = newItem lesson context queuedAt :: queue s).
    { unfold enqueueUpdater.
      destruct (Nat.leb_spec 5 (length (queue s))); [lia |].
      apply queued_false_not_In in Hfresh. now rewrite Hfresh. }
    split; [exact Hq |].
    cbn [showLesson enqueueLesson queue]. rewrite Hq.
    cbn [List.filter]. unfold LessonItem.id at 1. cbn [newItem LessonItem.lesson].
    unfold LessonItem.id at 1. cbn [newItem LessonItem.lesson].
    rewrite String.eqb_refl. cbn [negb]. now apply filter_other_ids.
Qed.

Lemma open_after_enqueue_restores_queue_witness :
  queue (showLesson (newItem lesson_h1 (manualContext "Habit" 0 oneQueued) 7000)
           (enqueueLesson lesson_h1 (manualContext "Habit" 0 oneQueued)
                          7000 7001 oneQueued))
  = queue oneQueued.
Proof.
  destruct (open_after_enqueue_restores_queue oneQueued lesson_h1
              (manualContext "Habit" 0 oneQueued) 7000 7001) as [_ Hround].
  - vm_compute. intuition discriminate.
  - apply Hround. vm_compute. lia.
Defined.

(** X9: a manual trigger that selects a lesson always leaves that lesson in
    the queue; when it was not queued before, it is the first entry
    afterwards, stamped with this trigger's time and context. *)
Theorem manual_trigger_queues_selection (s : State) (lesson : Lesson.t)
    (tag : string) (moodDraw pickDraw : Q) (queuedAt triggerAt : Z) :
  manualPick tag (Profile.skills (profile s)) pickDraw = Some lesson ->
  let s' := manualTrigger tag moodDraw pickDraw queuedAt triggerAt s in
  In (Lesson.id lesson) (map LessonItem.id (queue s'))
  /\ (~ In (Lesson.id lesson) (map LessonItem.id (queue s)) ->
      head (queue s')
      = Some (newItem lesson (manualContext tag moodDraw s) queuedAt)).
Proof.
  intros Hpick. cbv zeta. unfold manualTrigger. rewrite Hpick. simpl.
  unfold manualUpdater.
  destruct (queued lesson (queue s)) eqn:Hq.
  - split; [now apply queued_In |].
    intros Hfresh. apply queued_In in Hq. contradiction.
  - split; [now left | reflexivity].
Qed.

Lemma manual_trigger_queues_selection_witness :
  head (queue (manualTrigger "Habit" 0 0 6000 6001 fullState))
  = Some (newItem lesson_h1 (manualContext "Habit" 0 fullState) 6000).
Proof.
  apply (manual_trigger_queues_selection fullState lesson_h1 "Habit" 0 0 6000 6001).
  - reflexivity.
  - vm_compute. intuition discriminate.
Defined.

(* --------------------------------------------------------------------- *)
(*  The manual selection                                                  *)
(* --------------------------------------------------------------------- *)

(** X10: for a value r of Math.random() (0 <= r < 1) the manual selection
    always yields a catalog lesson; it comes from relevantLessons whenever
    that list is not empty, and when the requested tag is not one of the
    skills and some catalog lesson carries it, the selected lesson carries
    the requested tag. *)
Theorem manualPick_scoped (tag : string) (skills : list string) (r : Q) :
  (0 <= r)%Q -> (r < 1)%Q ->
  exists lesson,
    manualPick tag skills r = Some lesson
    /\ In lesson LESSONS
    /\ (relevantLessons tag skills <> [] -> In lesson (relevantLessons tag skills))
    /\ (~ In tag skills ->
        (exists l, In l LESSONS /\ In tag (Lesson.tags l)) ->
        In tag (Lesson.tags lesson)).
Proof.
  intros Hlo Hhi. unfold manualPick.
  destruct (relevantLessons tag skills) as [| l0 rest] eqn:Hrel.
  - cbn [length Nat.ltb Nat.leb].
    destruct (randomElement_Some LESSONS r Hlo Hhi) as (lesson & Hsome & Hin);
      [simpl; lia |].
    exists lesson. split; [exact Hsome |]. split; [exact Hin |].
    split; [congruence |].
    intros _ (l & Hl & Htag). exfalso.
    assert (Hin' : In l (relevantLessons tag skills))
      by (apply relevantLessons_In; auto).
    rewrite Hrel in Hin'. destruct Hin'.
  - destruct (randomElement_Some (l0 :: rest) r Hlo Hhi) as (lesson & Hsome & Hin);
      [simpl; lia |].
    exists lesson. change (0 <? length (l0 :: rest))%nat with true. cbv iota.
    split; [exact Hsome |].
    rewrite <- Hrel in Hin. pose proof Hin as Hrelevant.
    apply relevantLessons_In in Hin. destruct Hin as [Hcat Hwhy].
    split; [exact Hcat |]. split; [intros _; rewrite <- Hrel; exact Hrelevant |].
    intros Hnot _. destruct Hwhy as [H | H]; [exact H | contradiction].
Qed.

Lemma manualPick_scoped_witness :
  exists lesson,
    manualPick "Health" (Profile.skills INITIAL_PROFILE) (1 # 2) = Some lesson
    /\ In "Health" (Lesson.tags lesson).
Proof.
  destruct (manualPick_scoped "Health" (Profile.skills INITIAL_PROFILE) (1 # 2))
    as (lesson & Hpick & _ & _ & Htag).
  - unfold Qle; simpl; lia.
  - unfold Qlt; simpl; lia.
  - exists lesson. split; [exact Hpick |]. apply Htag.
    + simpl. intuition discriminate.
    + exists lesson_s1. simpl. auto 10.
Defined.

(* --------------------------------------------------------------------- *)
(*  The simulated context                                                 *)
(* --------------------------------------------------------------------- *)

(** X11: for a value r of Math.random() (0 <= r < 1), getMood returns one
    of the six moods of its vocabulary, never undefined. *)
Theorem getMood_in_vocabulary (r : Q) :
  (0 <= r)%Q -> (r < 1)%Q -> In (getMood r) moods.
Proof.
  intros Hlo Hhi. unfold getMood.
  destruct (randomElement_Some moods r Hlo Hhi) as (mood & -> & Hin);
    [simpl; lia | exact Hin].
Qed.

Lemma getMood_in_vocabulary_witness : In (getMood (5 # 6)) moods.
Proof.
  apply getMood_in_vocabulary; [unfold Qle | unfold Qlt]; simpl; lia.
Defined.

(** X12: the tags of a simulated context are the environment tags, in
    their order, followed by some of Idle, Waiting, Morning, Evening and
    Location-based in that order, followed by the mood.  Morning is there
    exactly in the morning and Evening exactly in the evening, and
    Location-based never without a known location; the context carries the
    last location and its time of day is never manual. *)
Theorem buildSimulatedContext_tags (hour : Z) (d : TickDraws)
    (tags : list string) (location : option Coordinates) :
  let context := buildSimulatedContext hour d tags location in
  exists extras,
    Context.tags context = tags ++ extras ++ [Context.mood context]
    /\ sublist extras ["Idle"; "Waiting"; "Morning"; "Evening"; "Location-based"]
    /\ (In "Morning" extras <-> Context.timeOfDay context = morning)
    /\ (In "Evening" extras <-> Context.timeOfDay context = evening)
    /\ (location = None -> ~ In "Location-based" extras)
    /\ Context.coords context = location
    /\ Context.timeOfDay context = getTimeOfDay hour
    /\ Context.timeOfDay context <> manual.
Proof.
  cbv zeta. unfold buildSimulatedContext.
  exists ((if greater (rIdle d) (6 # 10) then ["Idle"] else [])
          ++ (if greater (rWaiting d) (7 # 10) then ["Waiting"] else [])
          ++ match getTimeOfDay hour with morning => ["Morning"] | _ => [] end
          ++ match getTimeOfDay hour with evening => ["Evening"] | _ => [] end
          ++ (if isSome location && greater (rLocation d) (8 # 10)
              then ["Location-based"] else [])).
  assert (Hnotmanual : getTimeOfDay hour <> manual).
  { unfold getTimeOfDay.
    destruct ((5 <=? hour)%Z && (hour <? 12)%Z); [discriminate |].
    destruct (hour <? 17)%Z; discriminate. }
  cbn [Context.tags Context.mood Context.coords Context.timeOfDay].
  destruct (greater (rIdle d) (6 # 10)), (greater (rWaiting d) (7 # 10)),
    (getTimeOfDay hour) eqn:Htime, location as [c |],
    (greater (rLocation d) (8 # 10));
    try (now destruct Hnotmanual);
    cbn [isSome andb app];
    (split; [now rewrite <- ?app_assoc |]);
    (split; [repeat first [apply sublist_nil | apply sublist_skip | apply sublist_cons] |]);
    (split; [simpl; intuition discriminate |]);
    (split; [simpl; intuition discriminate |]);
    (split; [simpl; intuition discriminate |]);
    (split; [reflexivity |]);
    (split; [reflexivity | discriminate]).
Qed.

(* --------------------------------------------------------------------- *)
(*  The ambient selection in reachable states                             *)
(* --------------------------------------------------------------------- *)

(** X13: in every reachable state the profile's skills are the initial
    ones, so the ambient candidate list holds p1, s1 and e1 for every
    context, whatever its tags: it is never empty. *)
Theorem ambient_candidates_never_empty (storedAmbientOn : bool)
    (storedLessonsSeen : gmap string nat) (storedEnvTags : list string)
    (ops : list Op) (context : Context.t) :
  let skills := Profile.skills (profile (run (initialState storedAmbientOn
                                  storedLessonsSeen storedEnvTags) ops)) in
  In lesson_p1 (candidates context skills)
  /\ In lesson_s1 (candidates context skills)
  /\ In lesson_e1 (candidates context skills)
  /\ candidates context skills <> [].
Proof.
  cbv zeta.
  destruct (run_identity (initialState storedAmbientOn storedLessonsSeen storedEnvTags)
                         ops eq_refl) as (_ & -> & _).
  assert (Hp1 : In lesson_p1 (candidates context (Profile.skills INITIAL_PROFILE))).
  { apply candidates_In. split; [simpl; auto |].
    exists "Productivity". simpl. auto. }
  split; [exact Hp1 |]. split; [| split].
  - apply candidates_In. split; [simpl; auto 10 |].
    exists "Mindfulness". simpl. auto 10.
  - apply candidates_In. split; [simpl; auto 10 |].
    exists "Finance". simpl. auto 10.
  - intros Hnil. rewrite Hnil in Hp1. destruct Hp1.
Qed.

Lemma pickLessonForContext_Some (context : Context.t) (skills : list string)
    (seen : gmap string nat) (weighted fallback : Q) :
  (0 <= fallback)%Q -> (fallback < 1)%Q ->
  exists lesson,
    pickLessonForContext context skills seen weighted fallback = Some lesson
    /\ In lesson LESSONS.
Proof.
  intros Hlo Hhi.
  destruct (pickLessonForContext context skills seen weighted fallback)
    as [lesson |] eqn:Hpick.
  - exists lesson. split; [reflexivity |].
    eapply pickLessonForContext_In; exact Hpick.
  - exfalso. unfold pickLessonForContext in Hpick.
    destruct (if (0 <? length _)%nat then _ else None); [discriminate |].
    destruct (randomElement_Some LESSONS fallback Hlo Hhi) as (x & Hx & _);
      [simpl; lia | congruence].
Qed.

(** X14: an ambient tick whose fallback draw is a value of Math.random()
    always selects a catalog lesson and records it as the last trigger.
    With fewer than five entries queued and the lesson not among them, the
    lesson becomes the first entry, stamped with the tick's time and
    context; in every other case the queue is unchanged. *)
Theorem ambient_tick_outcome (s : State) (hour : Z) (d : TickDraws)
    (queuedAt triggerAt : Z) :
  (0 <= rFallback d)%Q -> (rFallback d < 1)%Q ->
  let context := buildSimulatedContext hour d (envTags s) (lastLocation s) in
  let s' := ambientTick hour d queuedAt triggerAt s in
  exists lesson,
    In lesson LESSONS
    /\ lastTrigger s' = Some {| lessonId := Lesson.id lesson; at_ := triggerAt |}
    /\ (((length (queue s) < 5)%nat
         /\ ~ In (Lesson.id lesson) (map LessonItem.id (queue s))
         /\ queue s' = newItem lesson context queuedAt :: queue s)
        \/ (((5 <= length (queue s))%nat
             \/ In (Lesson.id lesson) (map LessonItem.id (queue s)))
            /\ queue s' = queue s)).
Proof.
  intros Hlo Hhi. cbv zeta. unfold ambientTick.
  destruct (pickLessonForContext_Some
              (buildSimulatedContext hour d (envTags s) (lastLocation s))
              (Profile.skills (profile s)) (lessonsSeen s) (rPick d) (rFallback d)
              Hlo Hhi) as (lesson & -> & Hcat).
  exists lesson. split; [exact Hcat |]. split; [reflexivity |].
  cbn [enqueueLesson queue]. unfold enqueueUpdater.
  destruct (Nat.leb_spec 5 (length (queue s))) as [Hfull | Hroom].
  - right. split; [now left | reflexivity].
  - destruct (queued lesson (queue s)) eqn:Hq.
    + right. split; [right; now apply queued_In | reflexivity].
    + left. split; [exact Hroom |]. split; [| reflexivity].
      now apply queued_false_not_In.
Qed.

Lemma ambient_tick_outcome_witness :
  exists lesson,
    In lesson LESSONS
    /\ lastTrigger (ambientTick 9 quietDraws 8000 8001 oneQueued)
       = Some {| lessonId := Lesson.id lesson; at_ := 8001 |}.
Proof.
  destruct (ambient_tick_outcome oneQueued 9 quietDraws 8000 8001)
    as (lesson & Hcat & Hlast & _).
  - unfold Qle; simpl; lia.
  - unfold Qlt; simpl; lia.
  - exists lesson. split; [exact Hcat | exact Hlast].
Defined.

(* --------------------------------------------------------------------- *)
(*  The weighted draw, with exact weights                                 *)
(* --------------------------------------------------------------------- *)

Section Roulette.

Local Abbreviation add := (fun (sum : Q) (lw : Lesson.t * Q) => (sum + snd lw)%Q).






End Roulette.





(* --------------------------------------------------------------------- *)
(*  The level display                                                     *)
(* --------------------------------------------------------------------- *)

Lemma levelAgreesFrom_spec (n : nat) (z k : Z) :
  levelAgreesFrom z n = true -> (z <= k < z + Z.of_nat n)%Z ->
  levelAgrees k = true.
Proof.
  revert z. induction n as [| n IH]; intros z Hall Hk; [lia |].
  cbn [levelAgreesFrom] in Hall. apply andb_true_iff in Hall.
  destruct Hall as [Hz Hrest].
  destruct (Z.eq_dec k z) as [-> | Hne]; [exact Hz |].
  apply (IH (z + 1)%Z Hrest). lia.
Qed.

(* Every xp from 0 to 100000, computed. *)
Lemma levelAgrees_to_100000 : levelAgreesFrom 0 (Z.to_nat 100001) = true.
Proof. vm_compute. reflexivity. Qed.

Lemma sqrt_tenth_bracket (xp : Z) :
  (0 <= xp)%Z ->
  let l := Z.sqrt (xp / 10) in
  (10 * l * l <= xp < 10 * (l + 1) * (l + 1))%Z.
Proof.
  intros Hxp. cbv zeta.
  assert (Hq : (0 <= xp / 10)%Z) by (apply Z.div_pos; lia).
  pose proof (Z.sqrt_spec (xp / 10) Hq) as Hs. cbv zeta in Hs.
  set (l := Z.sqrt (xp / 10)) in *.
  pose proof (Z.div_mod xp 10 ltac:(lia)) as Hdm.
  pose proof (Z.mod_pos_bound xp 10 ltac:(lia)) as Hmod.
  nia.
Qed.

(** X16: for every integer xp from 0 to 100000, the double-precision
    computation of xpToLevel gives the exact level, the largest l with
    10 l^2 <= xp, and the exact threshold 10 (l+1)^2 of the next level,
    which is above xp; the progress it reports is at least 0 and below
    100, so Math.min never has to cut it. *)
Theorem xpToLevel_exact_to_100000 (xp : nat) :
  (Z.of_nat xp <= 100000)%Z ->
  let info := xpToLevel (toFloat (Z.of_nat xp)) in
  let l := Z.sqrt (Z.of_nat xp / 10) in
  (10 * l * l <= Z.of_nat xp < 10 * (l + 1) * (l + 1))%Z
  /\ PrimFloat.eqb (LevelInfo.level info) (toFloat l) = true
  /\ PrimFloat.eqb (LevelInfo.next info) (toFloat (10 * (l + 1) * (l + 1))) = true
  /\ PrimFloat.leb (toFloat 0) (LevelInfo.progress info) = true
  /\ PrimFloat.ltb (LevelInfo.progress info) (toFloat 100) = true.
Proof.
  intros Hxp. cbv zeta. split; [apply sqrt_tenth_bracket; lia |].
  assert (Hok : levelAgrees (Z.of_nat xp) = true).
  { apply (levelAgreesFrom_spec (Z.to_nat 100001) 0);
      [exact levelAgrees_to_100000 | lia]. }
  unfold levelAgrees in Hok. cbv zeta in Hok.
  apply andb_true_iff in Hok. destruct Hok as [Hok Hlt].
  apply andb_true_iff in Hok. destruct Hok as [Hok Hle].
  apply andb_true_iff in Hok. destruct Hok as [Hlevel Hnext].
  repeat split; assumption.
Qed.

(* The initial 245 points: level 4, next level at 250. *)
Lemma xpToLevel_exact_to_100000_witness :
  PrimFloat.eqb (LevelInfo.level (xpToLevel (toFloat (Z.of_nat 245)))) (toFloat 4) = true
  /\ PrimFloat.eqb (LevelInfo.next (xpToLevel (toFloat (Z.of_nat 245)))) (toFloat 250)
     = true.
Proof.
  destruct (xpToLevel_exact_to_100000 245) as (_ & Hlevel & Hnext & _).
  - lia.
  - split; [exact Hlevel | exact Hnext].
Defined.

(* --------------------------------------------------------------------- *)
(*  localStorage                                                          *)
(* --------------------------------------------------------------------- *)

(** X17: a value written by safeSet is what safeGet reads back under that
    key, provided its JSON text parses back to it and is not the empty
    text; other keys are not touched.  safeGet answers the fallback when
    there is no window, no entry, an empty text or a text that does not
    parse, and a write that the store refuses changes nothing. *)
Theorem safeGet_after_safeSet {T : Type} (stringify : T -> string)
    (parse : string -> option T) (localStorage : Storage) (key other : string)
    (value fallback : T) :
  parse (stringify value) = Some value -> stringify value <> "" ->
  safeGet parse (safeSet stringify true key value (Some localStorage)) key fallback
  = value
  /\ (other <> key ->
      safeGet parse (safeSet stringify true key value (Some localStorage))
              other fallback
      = safeGet parse (Some localStorage) other fallback)
  /\ safeSet stringify false key value (Some localStorage) = Some localStorage
  /\ safeGet parse None key fallback = fallback
  /\ (localStorage !! key = None ->
      safeGet parse (Some localStorage) key fallback = fallback)
  /\ (localStorage !! key = Some "" ->
      safeGet parse (Some localStorage) key fallback = fallback)
  /\ (forall raw, localStorage !! key = Some raw -> parse raw = None ->
      safeGet parse (Some localStorage) key fallback = fallback).
Proof.
  intros Hround Hnonempty. split; [| split; [| split; [| split; [| split; [| split]]]]].
  - simpl. rewrite lookup_insert_eq.
    destruct (String.eqb_spec (stringify value) ""); [contradiction |].
    now rewrite Hround.
  - intros Hne. simpl. rewrite lookup_insert_ne by congruence. reflexivity.
  - reflexivity.
  - reflexivity.
  - intros Hnone. simpl. now rewrite Hnone.
  - intros Hempty. simpl. now rewrite Hempty.
  - intros raw Hraw Hbad. simpl. rewrite Hraw, Hbad.
    now destruct (String.eqb raw "").
Qed.

Lemma safeGet_after_safeSet_witness :
  safeGet boolOfJson (safeSet jsonOfBool true "ambientOn" true (Some ∅))
          "ambientOn" false = true.
Proof.
  apply (safeGet_after_safeSet jsonOfBool boolOfJson ∅ "ambientOn" "envTags"
           true false).
  - reflexivity.
  - discriminate.
Defined.

(** X18: when the component is mounted again on the store that the
    persistence effect wrote for a state s (and the ambient flag, the seen
    counters and the tags survive JSON), it starts with the ambient flag,
    seen counters and environment tags of s, and with everything else as
    at the first start: the profile is the initial one again, because the
    key profile is written but never read, and the queue is empty. *)
Theorem mount_after_persist (stringifyBool : bool -> string)
    (parseBool : string -> option bool) (stringifyProfile : Profile.t -> string)
    (stringifySeen : gmap string nat -> string)
    (parseSeen : string -> option (gmap string nat))
    (stringifyTags : list string -> string)
    (parseTags : string -> option (list string))
    (s : State) (localStorage : Storage) :
  parseBool (stringifyBool (ambientOn s)) = Some (ambientOn s) ->
  stringifyBool (ambientOn s) <> "" ->
  parseSeen (stringifySeen (lessonsSeen s)) = Some (lessonsSeen s) ->
  stringifySeen (lessonsSeen s) <> "" ->
  parseTags (stringifyTags (envTags s)) = Some (envTags s) ->
  stringifyTags (envTags s) <> "" ->
  let s' := mount parseBool parseSeen parseTags
              (persist stringifyBool stringifyProfile stringifySeen stringifyTags
                       s (Some localStorage)) in
  s' = initialState (ambientOn s) (lessonsSeen s) (envTags s)
  /\ profile s' = INITIAL_PROFILE
  /\ queue s' = []
  /\ currentLesson s' = None.
Proof.
  intros Hb Hbne Hs Hsne Ht Htne. cbv zeta.
  assert (Hmount :
    mount parseBool parseSeen parseTags
      (persist stringifyBool stringifyProfile stringifySeen stringifyTags
               s (Some localStorage))
    = initialState (ambientOn s) (lessonsSeen s) (envTags s)).
  { unfold mount, persist. cbn [safeSet safeGet].
    rewrite lookup_insert_eq.
    rewrite (lookup_insert_ne _ "envTags" "lessonsSeen") by discriminate.
    rewrite lookup_insert_eq.
    rewrite (lookup_insert_ne _ "envTags" "ambientOn") by discriminate.
    rewrite (lookup_insert_ne _ "lessonsSeen" "ambientOn") by discriminate.
    rewrite (lookup_insert_ne _ "profile" "ambientOn") by discriminate.
    rewrite lookup_insert_eq.
    destruct (String.eqb_spec (stringifyBool (ambientOn s)) ""); [contradiction |].
    destruct (String.eqb_spec (stringifySeen (lessonsSeen s)) ""); [contradiction |].
    destruct (String.eqb_spec (stringifyTags (envTags s)) ""); [contradiction |].
    now rewrite Hb, Hs, Ht. }
  rewrite Hmount. repeat split.
Qed.

Lemma mount_after_persist_witness :
  let s := showLesson (LessonItem.mk lesson_p1 None None)
                      (initialState true ∅ DEFAULT_ENV_TAGS) in
  let s' := mount boolOfJson (fun _ => Some (lessonsSeen s))
                  (fun _ => Some (envTags s))
              (persist jsonOfBool (fun _ => "profile") (fun _ => "seen")
                       (fun _ => "tags") s (Some ∅)) in
  Profile.xp (profile s) = 270%nat
  /\ Profile.xp (profile s') = 245%nat
  /\ lessonsSeen s' !! "p1" = Some 1%nat.
Proof.
  cbv zeta.
  destruct (mount_after_persist jsonOfBool boolOfJson (fun _ => "profile")
              (fun _ => "seen")
              (fun _ => Some (lessonsSeen
                 (showLesson (LessonItem.mk lesson_p1 None None)
                             (initialState true ∅ DEFAULT_ENV_TAGS))))
              (fun _ => "tags")
              (fun _ => Some (envTags
                 (showLesson (LessonItem.mk lesson_p1 None None)
                             (initialState true ∅ DEFAULT_ENV_TAGS))))
              (showLesson (LessonItem.mk lesson_p1 None None)
                          (initialState true ∅ DEFAULT_ENV_TAGS))
              ∅) as (Hstate & _); try reflexivity; try discriminate.
  cbv zeta in Hstate. rewrite Hstate. repeat split.
Defined.

(* --------------------------------------------------------------------- *)
(*  What the queue and the last trigger hold                              *)
(* --------------------------------------------------------------------- *)

Lemma manualPick_In (tag : string) (skills : list string) (r : Q)
    (lesson : Lesson.t) :
  manualPick tag skills r = Some lesson -> In lesson LESSONS.
Proof.
  unfold manualPick, randomElement.
  destruct (0 <? length (relevantLessons tag skills))%nat; intros H;
    apply index_Some_In in H; [| exact H].
  now apply relevantLessons_In in H.
Qed.

Lemma newItem_wellFormed lesson context now :
  In lesson LESSONS -> wellFormedItem (newItem lesson context now).
Proof. intros H. split; [exact H |]. split; eexists; reflexivity. Qed.

Lemma Forall_sublist {A} (P : A -> Prop) (kept l : list A) :
  sublist kept l -> Forall P l -> Forall P kept.
Proof.
  induction 1 as [| x l1 l2 Hsub IH | x l1 l2 Hsub IH]; intros Hall.
  - constructor.
  - inversion Hall; subst. constructor; auto.
  - inversion Hall; subst. auto.
Qed.

Lemma step_wellFormed (s : State) (op : Op) :
  Forall wellFormedItem (queue s) /\ knownTrigger (lastTrigger s) ->
  Forall wellFormedItem (queue (step s op))
  /\ knownTrigger (lastTrigger (step s op)).
Proof.
  intros [Hq Ht].
  destruct op as [hour d queuedAt triggerAt
                 | tag moodDraw pickDraw queuedAt triggerAt
                 | lesson | | | | | trimmed | tag | c];
    simpl; try (split; assumption).
  - destruct (ambientOn s); [| split; assumption].
    unfold ambientTick.
    destruct (pickLessonForContext _ _ _ _ _) as [lesson |] eqn:Hpick;
      [| split; assumption].
    apply pickLessonForContext_In in Hpick.
    cbn [enqueueLesson queue lastTrigger knownTrigger lessonId]. split.
    + unfold enqueueUpdater. destruct (5 <=? length (queue s))%nat; [exact Hq |].
      destruct (queued lesson (queue s)); [exact Hq |].
      constructor; [now apply newItem_wellFormed | exact Hq].
    + now apply (in_map Lesson.id).
  - unfold manualTrigger.
    destruct (manualPick _ _ _) as [lesson |] eqn:Hpick; [| split; assumption].
    apply manualPick_In in Hpick.
    cbn [queue lastTrigger knownTrigger lessonId]. split.
    + unfold manualUpdater. destruct (queued lesson (queue s)); [exact Hq |].
      eapply Forall_sublist; [apply sublist_take |].
      constructor; [now apply newItem_wellFormed | exact Hq].
    + now apply (in_map Lesson.id).
  - split; [| exact Ht].
    eapply Forall_sublist; [apply filter_sublist | exact Hq].
  - unfold handleMarkDone. destruct (currentLesson s); split; assumption.
  - split; [constructor | exact Ht].
  - unfold addEnvTag. destruct (_ && _); split; assumption.
Qed.

(** X20: in every reachable state each queue entry is a lesson of the
    catalog together with the time and the context of its trigger, and
    the last trigger, once set, names a catalog lesson; a reset empties
    the queue but keeps the last trigger. *)
Theorem queue_holds_catalog_lessons (storedAmbientOn : bool)
    (storedLessonsSeen : gmap string nat) (storedEnvTags : list string)
    (ops : list Op) :
  let s := run (initialState storedAmbientOn storedLessonsSeen storedEnvTags) ops in
  Forall wellFormedItem (queue s)
  /\ knownTrigger (lastTrigger s)
  /\ lastTrigger (resetDemo s) = lastTrigger s.
Proof.
  cbv zeta.
  assert (H : Forall wellFormedItem
                (queue (run (initialState storedAmbientOn storedLessonsSeen
                                          storedEnvTags) ops))
              /\ knownTrigger
                   (lastTrigger (run (initialState storedAmbientOn storedLessonsSeen
                                                   storedEnvTags) ops))).
  { induction ops as [| op ops IH] using rev_ind.
    - split; [constructor | exact I].
    - rewrite run_snoc. now apply step_wellFormed. }
  destruct H as [Hq Ht]. split; [exact Hq | split; [exact Ht | reflexivity]].
Qed.
